(** * two1.bitcoin.crypto: key, DER and address encoding

    A shallow embedding of [two1/bitcoin/crypto.py] and the properties of
    its key/signature/address encoding pipeline.

    The module talks to four collaborators whose code lives elsewhere:
    the elliptic-curve engine ([two1.crypto.ecdsa]), the Base58Check codec
    ([base58]), the hash primitives ([hashlib]) and the DER codec
    ([pyasn1]).  The functions of [crypto.py] are written once, over
    interfaces for the first three; concrete instances (secp256k1, SHA-256,
    RIPEMD-160, Base58Check) are given afterwards so that every function
    can be run on concrete inputs.  Python integers are [Z]; the curve
    arithmetic alone runs on [bigZ], which evaluates 256-bit products
    quickly. *)

From Bignums Require Import BigZ.
From Stdlib Require Import ZArith List String Ascii Bool Lia.
From Stdlib Require Import Init.Byte.
From Stdlib Require Strings.Byte.
Import ListNotations.
Local Open Scope Z_scope.

(** ** Python exceptions and the error monad *)

(** The [assert] statements of the module. *)
Inductive assertion : Type :=
| assert_version_known   (* from_b58check: version in [TESTNET_VERSION, MAINNET_VERSION] *)
| assert_is_on_curve     (* PublicKey.__init__: bitcoin_curve.is_on_curve(p) *)
| assert_len_65          (* from_bytes: key_bytes_len == 65 *)
| assert_len_33.         (* from_bytes: key_bytes_len == 33 *)

(** The exceptions a call into the module can end with. *)
Inductive exn : Type :=
| AssertionError (a : assertion)
| NameError (name : string)
| TypeError
| ValueError
| OverflowError
| IndexError
| PyAsn1Error
| EngineError.

Inductive result (A : Type) : Type :=
| Ok (a : A)
| Err (e : exn).
Arguments Ok {A} a.
Arguments Err {A} e.

Definition bind {A B : Type} (m : result A) (k : A -> result B) : result B :=
  match m with
  | Ok a => k a
  | Err e => Err e
  end.

Declare Scope py_scope.
Delimit Scope py_scope with py.
Notation "x <- m ;; k" := (bind m (fun x => k))
  (at level 61, m at next level, right associativity) : py_scope.
Notation "m ;; k" := (bind m (fun _ => k))
  (at level 61, right associativity) : py_scope.
Local Open Scope py_scope.

(** [assert c] *)
Definition py_assert (c : bool) (a : assertion) : result unit :=
  if c then Ok tt else Err (AssertionError a).

Definition is_ok {A : Type} (m : result A) : bool :=
  match m with Ok _ => true | Err _ => false end.

(** ** Bytes and integers *)

Definition bytes := list byte.

Definition byte_to_Z (b : byte) : Z := Z.of_N (Strings.Byte.to_N b).

(** The byte with value [z mod 256]. *)
Definition byte_of_Z (z : Z) : byte :=
  match Strings.Byte.of_N (Z.to_N (z mod 256)) with
  | Some b => b
  | None => x00
  end.

(** [bytes([v])] for an integer [v]: ValueError outside [range(256)]. *)
Definition bytes_of_int (v : Z) : result bytes :=
  if (0 <=? v) && (v <? 256) then Ok [byte_of_Z v] else Err ValueError.

(** The [len] low-order bytes of [z], most significant first. *)
Fixpoint be_bytes (len : nat) (z : Z) : bytes :=
  match len with
  | O => []
  | S m => byte_of_Z (Z.shiftr z (8 * Z.of_nat m)) :: be_bytes m z
  end.

(** [z.to_bytes(len, 'big')]: OverflowError for a negative [z] and for one
    that does not fit [len] bytes. *)
Definition int_to_bytes (z : Z) (len : nat) : result bytes :=
  if z <? 0 then Err OverflowError
  else if 2 ^ (8 * Z.of_nat len) <=? z then Err OverflowError
  else Ok (be_bytes len z).

(** [int.from_bytes(bs, 'big')] *)
Definition int_from_bytes (bs : bytes) : Z :=
  fold_left (fun acc b => acc * 256 + byte_to_Z b) bs 0.

(** [l[i:j]] for non-negative constant bounds. *)
Definition slice {A : Type} (i j : nat) (l : list A) : list A :=
  firstn (j - i) (skipn i l).

Definition string_slice (i j : nat) (s : string) : string :=
  string_of_list_ascii (slice i j (list_ascii_of_string s)).

(** ** Python values, [int()] and [len()], global names *)

(** The values a name of the module can be bound to.  A Python [str] is a
    string of code points below 256; [VObject] stands for a module, class,
    function or instance the embedding does not look into. *)
Inductive value : Type :=
| VNone
| VBool (b : bool)
| VInt (z : Z)
| VBytes (bs : bytes)
| VStr (s : string)
| VObject (name : string).

Definition ascii_of_byte (b : byte) : ascii := ascii_of_N (Strings.Byte.to_N b).

Definition code (c : ascii) : Z := Z.of_N (N_of_ascii c).

(** White space skipped by [int()] around a [str] literal ... *)
Definition is_space_str (c : ascii) : bool :=
  let k := code c in
  ((9 <=? k) && (k <=? 13)) || (k =? 32) || (k =? 133) || (k =? 160).

(** ... and around a [bytes] literal. *)
Definition is_space_bytes (c : ascii) : bool :=
  let k := code c in
  ((9 <=? k) && (k <=? 13)) || (k =? 32).

Fixpoint lstrip (sp : ascii -> bool) (l : list ascii) : list ascii :=
  match l with
  | [] => []
  | c :: r => if sp c then lstrip sp r else l
  end.

Definition strip (sp : ascii -> bool) (l : list ascii) : list ascii :=
  rev (lstrip sp (rev (lstrip sp l))).

Definition digit_of (c : ascii) : option Z :=
  let k := code c in
  if (48 <=? k) && (k <=? 57) then Some (k - 48) else None.

(** Decimal digits, single underscores allowed between two digits. *)
Fixpoint parse_digits (l : list ascii) (acc : Z) (after_digit : bool) : option Z :=
  match l with
  | [] => if after_digit then Some acc else None
  | c :: r =>
      match digit_of c with
      | Some d => parse_digits r (acc * 10 + d) true
      | None =>
          if (code c =? 95) && after_digit then parse_digits r acc false
          else None
      end
  end.

(** [int(s)] in base 10 for a literal [s]: optional white space, an
    optional sign, digits; ValueError otherwise. *)
Definition int_of_literal (sp : ascii -> bool) (l : list ascii) : result Z :=
  let body := strip sp l in
  let parsed :=
    match body with
    | c :: r =>
        if code c =? 43 then parse_digits r 0 false
        else if code c =? 45 then option_map Z.opp (parse_digits r 0 false)
        else parse_digits body 0 false
    | [] => None
    end in
  match parsed with
  | Some z => Ok z
  | None => Err ValueError
  end.

(** [int(v)] *)
Definition py_int (v : value) : result Z :=
  match v with
  | VInt z => Ok z
  | VBool b => Ok (if b then 1 else 0)
  | VStr s => int_of_literal is_space_str (list_ascii_of_string s)
  | VBytes bs => int_of_literal is_space_bytes (map ascii_of_byte bs)
  | VNone | VObject _ => Err TypeError
  end.

(** [len(v)] *)
Definition py_len (v : value) : result Z :=
  match v with
  | VBytes bs => Ok (Z.of_nat (List.length bs))
  | VStr s => Ok (Z.of_nat (String.length s))
  | _ => Err TypeError
  end.

(** [v[i:j]] *)
Definition py_slice (i j : nat) (v : value) : result value :=
  match v with
  | VBytes bs => Ok (VBytes (slice i j bs))
  | VStr s => Ok (VStr (string_slice i j s))
  | _ => Err TypeError
  end.

(** [int.from_bytes(v, 'big')] *)
Definition py_int_from_bytes (v : value) : result Z :=
  match v with
  | VBytes bs => Ok (int_from_bytes bs)
  | _ => Err TypeError
  end.

Definition hex_digit_of (c : ascii) : option Z :=
  let k := code c in
  if (48 <=? k) && (k <=? 57) then Some (k - 48)
  else if (97 <=? k) && (k <=? 102) then Some (k - 87)
  else if (65 <=? k) && (k <=? 70) then Some (k - 55)
  else None.

(** [bytes.fromhex(s)]: two hexadecimal digits per byte, ASCII white space
    skipped between bytes; ValueError otherwise. *)
Fixpoint fromhex_pairs (fuel : nat) (l : list ascii) : result bytes :=
  match fuel with
  | O => Err ValueError
  | S fuel' =>
      match lstrip is_space_bytes l with
      | [] => Ok []
      | [_] => Err ValueError
      | c1 :: c2 :: r =>
          match hex_digit_of c1, hex_digit_of c2 with
          | Some h, Some l' =>
              bs <- fromhex_pairs fuel' r ;;
              Ok (byte_of_Z (16 * h + l') :: bs)
          | _, _ => Err ValueError
          end
      end
  end.

Definition bytes_fromhex (s : string) : result bytes :=
  fromhex_pairs (S (String.length s)) (list_ascii_of_string s).

Definition hex_digit (z : Z) : ascii :=
  ascii_of_N (Z.to_N (if z <? 10 then 48 + z else 87 + z)).

(** Modelled from the spec: [bytes_to_str] of [two1.bitcoin.utils], which is
    not part of the module: lowercase hexadecimal, two digits per octet. *)
Definition bytes_to_str (bs : bytes) : string :=
  string_of_list_ascii
    (flat_map (fun b => [hex_digit (byte_to_Z b / 16);
                         hex_digit (byte_to_Z b mod 16)]) bs).

(** A namespace binds names to values; the first binding of a name wins. *)
Definition namespace := list (string * value).

Fixpoint lookup (name : string) (ns : namespace) : option value :=
  match ns with
  | [] => None
  | (k, v) :: r => if String.eqb k name then Some v else lookup name r
  end.

(** Reading a name that the function body never assigns: the module's
    globals, then the builtins; NameError when neither binds it. *)
Definition load_global (globals builtins : namespace) (name : string) : result value :=
  match lookup name globals with
  | Some v => Ok v
  | None =>
      match lookup name builtins with
      | Some v => Ok v
      | None => Err (NameError name)
      end
  end.

Definition objects (names : list string) : namespace :=
  map (fun name => (name, VObject name)) names.

(** The names the module binds at top level: its imports, [bitcoin_curve],
    its classes and functions, the names every module has, and the names
    the script part binds when the file is run as a program. *)
Definition module_globals : namespace :=
  objects
    [ "__name__"; "__doc__"; "__package__"; "__loader__"; "__spec__";
      "__file__"; "__cached__"; "__builtins__";
      "base58"; "hashlib"; "random"; "univ"; "namedtype"; "encoder";
      "decoder"; "bytes_to_str"; "ECPointAffine"; "ECPointJacobian";
      "EllipticCurve"; "secp256k1"; "bitcoin_curve"; "ECDERPoint";
      "der_encode_point"; "der_encode_hex"; "der_decode_point";
      "PrivateKey"; "PublicKey";
      "private_key"; "public_key"; "pk_hex"; "message"; "sig"; "sig_hex";
      "sig_ver" ]%string.

(** The names of the [builtins] module. *)
Definition builtins : namespace :=
  objects
    [ "ArithmeticError"; "AssertionError"; "AttributeError"; "BaseException";
      "BaseExceptionGroup"; "BlockingIOError"; "BrokenPipeError"; "BufferError";
      "BytesWarning"; "ChildProcessError"; "ConnectionAbortedError";
      "ConnectionError"; "ConnectionRefusedError"; "ConnectionResetError";
      "DeprecationWarning"; "EOFError"; "Ellipsis"; "EncodingWarning";
      "EnvironmentError"; "Exception"; "ExceptionGroup"; "False";
      "FileExistsError"; "FileNotFoundError"; "FloatingPointError";
      "FutureWarning"; "GeneratorExit"; "IOError"; "ImportError"; "ImportWarning";
      "IndentationError"; "IndexError"; "InterruptedError"; "IsADirectoryError";
      "KeyError"; "KeyboardInterrupt"; "LookupError"; "MemoryError";
      "ModuleNotFoundError"; "NameError"; "None"; "NotADirectoryError";
      "NotImplemented"; "NotImplementedError"; "OSError"; "OverflowError";
      "PendingDeprecationWarning"; "PermissionError"; "ProcessLookupError";
      "RecursionError"; "ReferenceError"; "ResourceWarning"; "RuntimeError";
      "RuntimeWarning"; "StopAsyncIteration"; "StopIteration"; "SyntaxError";
      "SyntaxWarning"; "SystemError"; "SystemExit"; "TabError"; "TimeoutError";
      "True"; "TypeError"; "UnboundLocalError"; "UnicodeDecodeError";
      "UnicodeEncodeError"; "UnicodeError"; "UnicodeTranslateError";
      "UnicodeWarning"; "UserWarning"; "ValueError"; "Warning";
      "ZeroDivisionError"; "__build_class__"; "__debug__"; "__doc__";
      "__import__"; "__loader__"; "__name__"; "__package__"; "__spec__"; "abs";
      "aiter"; "all"; "anext"; "any"; "ascii"; "bin"; "bool"; "breakpoint";
      "bytearray"; "bytes"; "callable"; "chr"; "classmethod"; "compile";
      "complex"; "copyright"; "credits"; "delattr"; "dict"; "dir"; "divmod";
      "enumerate"; "eval"; "exec"; "exit"; "filter"; "float"; "format";
      "frozenset"; "getattr"; "globals"; "hasattr"; "hash"; "help"; "hex"; "id";
      "input"; "int"; "isinstance"; "issubclass"; "iter"; "len"; "license";
      "list"; "locals"; "map"; "max"; "memoryview"; "min"; "next"; "object";
      "oct"; "open"; "ord"; "pow"; "print"; "property"; "quit"; "range"; "repr";
      "reversed"; "round"; "set"; "setattr"; "slice"; "sorted"; "staticmethod";
      "str"; "sum"; "super"; "tuple"; "type"; "vars"; "zip" ]%string.

(** ** The collaborators *)

(** [ECPointAffine(curve, x, y)]: the affine coordinates; the curve is
    always [bitcoin_curve] in this module. *)
Module ECPointAffine.
Record t : Type := mk { x : Z; y : Z }.
End ECPointAffine.

(** The elliptic-curve engine [two1.crypto.ecdsa], as [crypto.py] uses it:
    the curve parameters [p] and [n] and the four operations called on
    [bitcoin_curve] and [ECPointAffine].  An operation of the engine may
    raise. *)
Module EllipticCurve.
Class t : Type := {
  p : Z;
  n : Z;
  (* bitcoin_curve.public_key(k) *)
  public_key : Z -> result Z;
  (* bitcoin_curve.is_on_curve(pt) *)
  is_on_curve : ECPointAffine.t -> bool;
  (* bitcoin_curve.y_from_x(x) *)
  y_from_x : Z -> result Z;
  (* ECPointAffine.from_int(bitcoin_curve, i) *)
  from_int : Z -> result ECPointAffine.t
}.
End EllipticCurve.

(** [hashlib.sha256(m).digest()] and [hashlib.new('ripemd160')] with one
    [update(m)] and [digest()]. *)
Class Hashlib : Type := {
  sha256 : bytes -> bytes;
  ripemd160 : bytes -> bytes
}.

(** The [base58] package. *)
Class Base58 : Type := {
  b58encode_check : bytes -> string;
  b58decode_check : string -> result bytes
}.

(** The signing side of the curve engine: [bitcoin_curve.sign(message,
    key)], which returns the raw signature as a point [(r, s)], and
    [bitcoin_curve.verify(message, sig_pt, point)]. *)
Module ECDSA.
Class t : Type := {
  sign : bytes -> Z -> result ECPointAffine.t;
  verify : bytes -> ECPointAffine.t -> ECPointAffine.t -> result bool
}.
End ECDSA.

(** ** The DER codec (pyasn1) *)

(** Modelled from the spec: the DER codec is the third-party [pyasn1]
    package, whose code is not part of the module.  Section 4.1 fixes its
    contract: an ASN.1 SEQUENCE of INTEGER elements under the standard DER
    rules, minimal-length two's-complement INTEGER contents, definite
    lengths.  The model covers the two universal types the module uses. *)
#[warnings="-register-all"] Inductive asn1 : Type :=
| Asn1Integer (z : Z)
| Asn1Sequence (items : list asn1).

(** Modelled from the spec: the number of content octets of the minimal
    two's-complement encoding of [z]. *)
Definition twos_complement_len (z : Z) : nat :=
  Z.to_nat ((Z.log2 (if z <? 0 then Z.lnot z else z) + 1) / 8 + 1).

(** Modelled from the spec: the content octets of INTEGER [z]. *)
Definition integer_content (z : Z) : bytes :=
  be_bytes (twos_complement_len z) z.

(** Modelled from the spec: the value of INTEGER content octets, read as a
    two's-complement number (no content octets read as 0). *)
Definition integer_value (bs : bytes) : Z :=
  let u := int_from_bytes bs in
  let w := 8 * Z.of_nat (List.length bs) in
  if (0 <? w) && (2 ^ (w - 1) <=? u) then u - 2 ^ w else u.

(** Modelled from the spec: the length octets, short form below 128 and
    long form from there on. *)
Definition length_octets (len : nat) : bytes :=
  let l := Z.of_nat len in
  if l <? 128 then [byte_of_Z l]
  else
    let k := Z.to_nat (Z.log2 l / 8 + 1) in
    byte_of_Z (128 + Z.of_nat k) :: be_bytes k l.

(** Modelled from the spec: [encoder.encode(v)]. *)
Fixpoint encoder_encode (v : asn1) : bytes :=
  match v with
  | Asn1Integer z =>
      let c := integer_content z in
      x02 :: length_octets (List.length c) ++ c
  | Asn1Sequence items =>
      let c := List.concat (map encoder_encode items) in
      x30 :: length_octets (List.length c) ++ c
  end.

(** Modelled from the spec: reading the length octets; the indefinite form
    and a truncated long form are errors. *)
Definition decode_length (bs : bytes) : result (nat * bytes) :=
  match bs with
  | [] => Err PyAsn1Error
  | b :: rest =>
      let v := byte_to_Z b in
      if v <? 128 then Ok (Z.to_nat v, rest)
      else if v =? 128 then Err PyAsn1Error
      else
        let k := Z.to_nat (v - 128) in
        if (List.length rest <? k)%nat then Err PyAsn1Error
        else Ok (Z.to_nat (int_from_bytes (firstn k rest)), skipn k rest)
  end.

(** Modelled from the spec: one tag-length-value item and the octets after
    it.  A truncated item and a tag other than INTEGER or SEQUENCE are
    decode errors.  The fuel bounds the nesting; [decoder_decode] supplies
    more than any input can use ([decode_item_fuel]). *)
Fixpoint decode_item (fuel : nat) (bs : bytes) : result (asn1 * bytes) :=
  match fuel with
  | O => Err PyAsn1Error
  | S fuel' =>
      match bs with
      | [] => Err PyAsn1Error
      | tag :: after_tag =>
          lr <- decode_length after_tag ;;
          let '(len, rest) := lr in
          if (List.length rest <? len)%nat then Err PyAsn1Error
          else
            let content := firstn len rest in
            let tail := skipn len rest in
            if Strings.Byte.eqb tag x02 then
              Ok (Asn1Integer (integer_value content), tail)
            else if Strings.Byte.eqb tag x30 then
              items <- decode_items fuel' content ;;
              Ok (Asn1Sequence items, tail)
            else Err PyAsn1Error
      end
  end
with decode_items (fuel : nat) (bs : bytes) : result (list asn1) :=
  match fuel with
  | O => Err PyAsn1Error
  | S fuel' =>
      match bs with
      | [] => Ok []
      | _ :: _ =>
          ir <- decode_item fuel' bs ;;
          let '(item, rest) := ir in
          items <- decode_items fuel' rest ;;
          Ok (item :: items)
      end
  end.

(** Modelled from the spec: [decoder.decode(der)], the first value in
    [der] and the octets that follow it. *)
Definition decoder_decode (der : bytes) : result (asn1 * bytes) :=
  decode_item (S (List.length der)) der.

(** Modelled from the spec: [d.getComponentByPosition(i)]. *)
Definition getComponentByPosition (d : asn1) (i : nat) : result asn1 :=
  match d with
  | Asn1Sequence items =>
      match nth_error items i with
      | Some c => Ok c
      | None => Err PyAsn1Error
      end
  | Asn1Integer _ => Err PyAsn1Error
  end.

(** Modelled from the spec: [int(c)] for a decoded component. *)
Definition asn1_int (c : asn1) : result Z :=
  match c with
  | Asn1Integer z => Ok z
  | Asn1Sequence _ => Err TypeError
  end.

(** [ECDERPoint]: a SEQUENCE of the INTEGERs [r] and [s]. *)
Module ECDERPoint.
Record t : Type := mk { r : Z; s : Z }.

Definition to_asn1 (ep : t) : asn1 :=
  Asn1Sequence [Asn1Integer (r ep); Asn1Integer (s ep)].
End ECDERPoint.

Definition der_encode_point (pt : ECPointAffine.t) : bytes :=
  let ep := ECDERPoint.mk (ECPointAffine.x pt) (ECPointAffine.y pt) in
  encoder_encode (ECDERPoint.to_asn1 ep).

Definition der_encode_hex (pt : ECPointAffine.t) : string :=
  let enc := der_encode_point pt in
  bytes_to_str enc.

(** [der] is [bytes], a hexadecimal [str], or anything else (TypeError). *)
Definition der_decode_point (curve : EllipticCurve.t) (der : value)
  : result ECPointAffine.t :=
  d <- match der with
       | VBytes b => dr <- decoder_decode b ;; Ok (fst dr)
       | VStr s => b <- bytes_fromhex s ;; dr <- decoder_decode b ;; Ok (fst dr)
       | _ => Err TypeError
       end ;;
  c0 <- getComponentByPosition d 0 ;;
  x <- asn1_int c0 ;;
  c1 <- getComponentByPosition d 1 ;;
  y <- asn1_int c1 ;;
  Ok (ECPointAffine.mk x y).

(** ** PublicKey *)

Module PublicKey.

Record t : Type := mk {
  point : ECPointAffine.t;
  testnet : bool;
  _address : bytes;
  _b58address : string
}.

Section Methods.
Context {bitcoin_curve : EllipticCurve.t} {hashlib : Hashlib} {base58 : Base58}.

(** [bytes(self)] reads [self.point] only. *)
Definition __bytes__ (self : t) : result bytes :=
  xb <- int_to_bytes (ECPointAffine.x (point self)) 32 ;;
  yb <- int_to_bytes (ECPointAffine.y (point self)) 32 ;;
  Ok ([x04] ++ xb ++ yb).

(** [PublicKey(x, y, testnet)].  The address attributes are unset while
    [bytes(self)] runs; they are written as empty until they are assigned. *)
Definition __init__ (x y : Z) (testnet : bool) : result t :=
  let p := ECPointAffine.mk x y in
  py_assert (EllipticCurve.is_on_curve p) assert_is_on_curve ;;
  let self := mk p testnet [] EmptyString in
  self_bytes <- __bytes__ self ;;
  let pk_sha := sha256 self_bytes in
  (* RIPEMD-160 of SHA-256 *)
  let ripe := ripemd160 pk_sha in
  (* Put the version byte in front, 0x00 for Mainnet, 0x6F for testnet *)
  let version := if testnet then [x6f] else [x00] in
  let address := version ++ ripe in
  Ok (mk p testnet address (b58encode_check address)).

Definition from_point (p : ECPointAffine.t) (testnet : bool) : result t :=
  __init__ (ECPointAffine.x p) (ECPointAffine.y p) testnet.

Definition from_int (i : Z) (testnet : bool) : result t :=
  point <- EllipticCurve.from_int i ;;
  from_point point testnet.

Definition from_der (d : value) (testnet : bool) : result t :=
  point <- der_decode_point bitcoin_curve d ;;
  from_point point testnet.

(** The body of [from_bytes], run with the global names [globals].  The
    body never assigns [key_bytes] or [key], so both are read as globals;
    the parameter [b] is not read at all.  [None] is the Python [None] the
    last branch returns. *)
Definition from_bytes_in (globals : namespace) (b : value) (testnet : bool)
  : result (option t) :=
  key_bytes <- load_global globals builtins "key_bytes" ;;
  key_bytes_len <- py_len key_bytes ;;
  key <- load_global globals builtins "key" ;;
  key_prefix <- py_slice 0 2 key ;;
  key_type <- py_int key_prefix ;;
  if key_type =? 0x04 then
    (* Uncompressed *)
    py_assert (key_bytes_len =? 65) assert_len_65 ;;
    xs <- py_slice 1 32 key_bytes ;;
    x <- py_int_from_bytes xs ;;
    ys <- py_slice 32 65 key_bytes ;;
    y <- py_int_from_bytes ys ;;
    pk <- __init__ x y testnet ;;
    Ok (Some pk)
  else if (key_type =? 0x02) || (key_type =? 0x03) then
    py_assert (key_bytes_len =? 33) assert_len_33 ;;
    xs <- py_slice 1 32 key_bytes ;;
    x <- py_int_from_bytes xs ;;
    y <- EllipticCurve.y_from_x x ;;
    let y := if negb (y mod 2 =? key_type - 2)
             then (- y) mod EllipticCurve.p
             else y in
    pk <- __init__ x y testnet ;;
    Ok (Some pk)
  else
    Ok None.

(** [PublicKey.from_bytes(b, testnet)], called in the module as it stands. *)
Definition from_bytes (b : value) (testnet : bool) : result (option t) :=
  from_bytes_in module_globals b testnet.

Definition from_hex (h : string) (testnet : bool) : result (option t) :=
  b <- bytes_fromhex h ;;
  from_bytes (VBytes b) testnet.

(** The public keys the module hands out: the results of its constructors,
    [from_bytes] under any binding of the global names. *)
Inductive constructed : t -> Prop :=
| constructed_init (x y : Z) (testnet : bool) (pk : t) :
    __init__ x y testnet = Ok pk -> constructed pk
| constructed_from_point (p : ECPointAffine.t) (testnet : bool) (pk : t) :
    from_point p testnet = Ok pk -> constructed pk
| constructed_from_int (i : Z) (testnet : bool) (pk : t) :
    from_int i testnet = Ok pk -> constructed pk
| constructed_from_der (d : value) (testnet : bool) (pk : t) :
    from_der d testnet = Ok pk -> constructed pk
| constructed_from_bytes (globals : namespace) (b : value) (testnet : bool) (pk : t) :
    from_bytes_in globals b testnet = Ok (Some pk) -> constructed pk.

(** The [address] and [b58address] properties return the stored attributes. *)
Definition address (self : t) : bytes := _address self.

Definition b58address (self : t) : string := _b58address self.

Definition to_der (self : t) : bytes := der_encode_point (point self).

Definition to_hex (self : t) : result string :=
  self_bytes <- __bytes__ self ;;
  Ok (bytes_to_str self_bytes).

Definition __int__ (self : t) : Z :=
  let nbits := if EllipticCurve.n =? 0 then 0
               else Z.log2 (Z.abs EllipticCurve.n) + 1 in
  Z.shiftl (ECPointAffine.x (point self)) nbits + ECPointAffine.y (point self).

Context {ecdsa : ECDSA.t}.

(** [signature] is [bytes], a hexadecimal [str], or anything else
    (TypeError). *)
Definition verify (self : t) (message : bytes) (signature : value)
  : result bool :=
  sig <- match signature with
         | VBytes b => Ok b
         | VStr s => bytes_fromhex s
         | _ => Err TypeError
         end ;;
  sig_pt <- der_decode_point bitcoin_curve (VBytes sig) ;;
  ECDSA.verify message sig_pt (point self).

End Methods.
End PublicKey.

(** ** PrivateKey *)

(** [random.SystemRandom().randrange(a, b)]: any integer of [a, b), and
    ValueError when that range is empty. *)
Inductive randrange (a b : Z) : result Z -> Prop :=
| randrange_draw (r : Z) : a <= r < b -> randrange a b (Ok r)
| randrange_empty : b <= a -> randrange a b (Err ValueError).

Module PrivateKey.

Definition TESTNET_VERSION : Z := 0xEF.
Definition MAINNET_VERSION : Z := 0x80.

Record t : Type := mk {
  key : Z;
  version : Z;
  _public_key : PublicKey.t
}.

Section Methods.
Context {bitcoin_curve : EllipticCurve.t} {hashlib : Hashlib} {base58 : Base58}.

(** [PrivateKey(k, testnet)] *)
Definition __init__ (k : Z) (testnet : bool) : result t :=
  let version := if testnet then TESTNET_VERSION else MAINNET_VERSION in
  i <- EllipticCurve.public_key k ;;
  public <- PublicKey.from_int i testnet ;;
  Ok (mk k version public).

Definition from_int (i : Z) (testnet : bool) : result t :=
  __init__ i testnet.

Definition from_b58check (private_key : string) : result t :=
  b58dec <- b58decode_check private_key ;;
  match b58dec with
  | [] => Err IndexError
  | v :: rest =>
      let version := byte_to_Z v in
      py_assert ((version =? TESTNET_VERSION) || (version =? MAINNET_VERSION))
                assert_version_known ;;
      __init__ (int_from_bytes rest) (version =? TESTNET_VERSION)
  end.

(** The outcomes of [from_random(testnet)]: one per draw of the secure
    random source. *)
Inductive from_random (testnet : bool) : result t -> Prop :=
| from_random_draw (d : result Z) :
    randrange 1 (EllipticCurve.n - 1) d ->
    from_random testnet (k <- d ;; __init__ k testnet).

Definition public_key (self : t) : PublicKey.t := _public_key self.

Definition __bytes__ (self : t) : result bytes :=
  vb <- bytes_of_int (version self) ;;
  kb <- int_to_bytes (key self) 32 ;;
  Ok (vb ++ kb).

Definition to_b58check (self : t) : result string :=
  self_bytes <- __bytes__ self ;;
  Ok (b58encode_check self_bytes).

Definition to_hex (self : t) : result string :=
  self_bytes <- __bytes__ self ;;
  Ok (bytes_to_str self_bytes).

Definition __int__ (self : t) : Z := key self.

Context {ecdsa : ECDSA.t}.

Definition raw_sign (self : t) (message : bytes) : result ECPointAffine.t :=
  ECDSA.sign message (key self).

(** Returns a DER encoded signature of message as a byte string. *)
Definition sign (self : t) (message : bytes) : result bytes :=
  pt <- raw_sign self message ;;
  Ok (der_encode_point pt).

End Methods.
End PrivateKey.

(** [PublicKey.from_private_key(private_key)] *)
Definition from_private_key (private_key : PrivateKey.t) : PublicKey.t :=
  PrivateKey.public_key private_key.

(** ** Concrete collaborators

    The hash primitives, the Base58Check codec and the curve engine are
    not part of [crypto.py]; the instances below follow their standards
    and are checked against known answers further down. *)

(** 32-bit words for the two hash functions. *)
Definition w32 (z : Z) : Z := Z.land z 0xFFFFFFFF.

Definition rotr32 (k x : Z) : Z :=
  Z.lor (Z.shiftr x k) (w32 (Z.shiftl x (32 - k))).

Definition rotl32 (k x : Z) : Z :=
  Z.lor (w32 (Z.shiftl x k)) (Z.shiftr x (32 - k)).

Definition not32 (x : Z) : Z := Z.lxor x 0xFFFFFFFF.

(** Consecutive groups of [k] elements; a short last group is dropped. *)
Fixpoint chunks {A : Type} (fuel k : nat) (l : list A) : list (list A) :=
  match fuel with
  | O => []
  | S fuel' =>
      if (List.length l <? k)%nat then []
      else firstn k l :: chunks fuel' k (skipn k l)
  end.

(** The padded message: a 1 bit, zeros up to 56 modulo 64 octets, and the
    bit length in eight octets given by [len_octets]. *)
Definition md_pad (len_octets : Z -> bytes) (m : bytes) : bytes :=
  let l := Z.of_nat (List.length m) in
  let zeros := Z.to_nat ((55 - l) mod 64) in
  m ++ [x80] ++ repeat x00 zeros ++ len_octets (8 * l).

(** Modelled from the spec: SHA-256 (FIPS 180-4), behind [hashlib.sha256]. *)
Module SHA256.

(** The primes below [bound], in order. *)
Definition primes_below (bound : nat) : list Z :=
  filter
    (fun q => forallb (fun d => negb (q mod d =? 0))
                (map Z.of_nat (seq 2 (Z.to_nat q - 2))))
    (map Z.of_nat (seq 2 (bound - 2))).

(** The integer cube root of [m], found bit by bit from [2 ^ bits] down. *)
Fixpoint cube_root (bits : nat) (m r : Z) : Z :=
  match bits with
  | O => r
  | S bits' =>
      let c := r + 2 ^ Z.of_nat bits' in
      if c * c * c <=? m then cube_root bits' m c else cube_root bits' m r
  end.

(** The round constants: the first 32 bits of the fractional parts of the
    cube roots of the first 64 primes. *)
Definition K : list Z :=
  Eval vm_compute in
    map (fun q => w32 (cube_root 40 (q * 2 ^ 96) 0)) (primes_below 312).

(** The initial hash value: the first 32 bits of the fractional parts of
    the square roots of the first 8 primes. *)
Definition H0 : list Z :=
  Eval vm_compute in
    map (fun q => w32 (Z.sqrt (q * 2 ^ 64))) (primes_below 20).

Definition Ch (x y z : Z) : Z := Z.lxor (Z.land x y) (Z.land (not32 x) z).
Definition Maj (x y z : Z) : Z :=
  Z.lxor (Z.lxor (Z.land x y) (Z.land x z)) (Z.land y z).
Definition Sigma0 (x : Z) : Z :=
  Z.lxor (Z.lxor (rotr32 2 x) (rotr32 13 x)) (rotr32 22 x).
Definition Sigma1 (x : Z) : Z :=
  Z.lxor (Z.lxor (rotr32 6 x) (rotr32 11 x)) (rotr32 25 x).
Definition sigma0 (x : Z) : Z :=
  Z.lxor (Z.lxor (rotr32 7 x) (rotr32 18 x)) (Z.shiftr x 3).
Definition sigma1 (x : Z) : Z :=
  Z.lxor (Z.lxor (rotr32 17 x) (rotr32 19 x)) (Z.shiftr x 10).

(** The message schedule; [recent] holds the words so far, latest first. *)
Fixpoint schedule (more : nat) (recent : list Z) : list Z :=
  match more with
  | O => rev recent
  | S more' =>
      let w := w32 (sigma1 (nth 1 recent 0) + nth 6 recent 0
                    + sigma0 (nth 14 recent 0) + nth 15 recent 0) in
      schedule more' (w :: recent)
  end.

Definition round (st : list Z) (kw : Z * Z) : list Z :=
  match st with
  | [a; b; c; d; e; f; g; h] =>
      let t1 := h + Sigma1 e + Ch e f g + fst kw + snd kw in
      let t2 := Sigma0 a + Maj a b c in
      [w32 (t1 + t2); a; b; c; w32 (d + t1); e; f; g]
  | _ => st
  end.

Definition compress (h : list Z) (block : bytes) : list Z :=
  let words := map int_from_bytes (chunks 16 4 block) in
  let w := schedule 48 (rev words) in
  let st := fold_left round (combine K w) h in
  map (fun p => w32 (fst p + snd p)) (combine h st).

(** Modelled from the spec: the SHA-256 hash primitive (FIPS 180-4), the
    [hashlib.sha256] of the module. *)
Definition digest (m : bytes) : bytes :=
  let padded := md_pad (be_bytes 8) m in
  let blocks := chunks (List.length padded) 64 padded in
  List.concat (map (be_bytes 4) (fold_left compress blocks H0)).

End SHA256.

(** Modelled from the spec: RIPEMD-160, behind [hashlib.new('ripemd160')]. *)
Module RIPEMD160.

Definition H0 : list Z :=
  [ 0x67452301; 0xEFCDAB89; 0x98BADCFE; 0x10325476; 0xC3D2E1F0 ].

(** The five round functions. *)
Definition f (j : nat) (x y z : Z) : Z :=
  match (j / 16)%nat with
  | 0%nat => Z.lxor (Z.lxor x y) z
  | 1%nat => Z.lor (Z.land x y) (Z.land (not32 x) z)
  | 2%nat => Z.lxor (Z.lor x (not32 y)) z
  | 3%nat => Z.lor (Z.land x z) (Z.land y (not32 z))
  | _ => Z.lxor x (Z.lor y (not32 z))
  end.

Definition KL : list Z := [ 0x00000000; 0x5A827999; 0x6ED9EBA1; 0x8F1BBCDC; 0xA953FD4E ].
Definition KR : list Z := [ 0x50A28BE6; 0x5C4DD124; 0x6D703EF3; 0x7A6D76E9; 0x00000000 ].

(** Word selection and rotation amounts of the left and the right line. *)
Definition RL : list nat :=
  [ 0; 1; 2; 3; 4; 5; 6; 7; 8; 9; 10; 11; 12; 13; 14; 15;
    7; 4; 13; 1; 10; 6; 15; 3; 12; 0; 9; 5; 2; 14; 11; 8;
    3; 10; 14; 4; 9; 15; 8; 1; 2; 7; 0; 6; 13; 11; 5; 12;
    1; 9; 11; 10; 0; 8; 12; 4; 13; 3; 7; 15; 14; 5; 6; 2;
    4; 0; 5; 9; 7; 12; 2; 10; 14; 1; 3; 8; 11; 6; 15; 13 ]%nat.

Definition RR : list nat :=
  [ 5; 14; 7; 0; 9; 2; 11; 4; 13; 6; 15; 8; 1; 10; 3; 12;
    6; 11; 3; 7; 0; 13; 5; 10; 14; 15; 8; 12; 4; 9; 1; 2;
    15; 5; 1; 3; 7; 14; 6; 9; 11; 8; 12; 2; 10; 0; 4; 13;
    8; 6; 4; 1; 3; 11; 15; 0; 5; 12; 2; 13; 9; 7; 10; 14;
    12; 15; 10; 4; 1; 5; 8; 7; 6; 2; 13; 14; 0; 3; 9; 11 ]%nat.

Definition SL : list Z :=
  [ 11; 14; 15; 12; 5; 8; 7; 9; 11; 13; 14; 15; 6; 7; 9; 8;
    7; 6; 8; 13; 11; 9; 7; 15; 7; 12; 15; 9; 11; 7; 13; 12;
    11; 13; 6; 7; 14; 9; 13; 15; 14; 8; 13; 6; 5; 12; 7; 5;
    11; 12; 14; 15; 14; 15; 9; 8; 9; 14; 5; 6; 8; 6; 5; 12;
    9; 15; 5; 11; 6; 8; 13; 12; 5; 12; 13; 14; 11; 8; 5; 6 ].

Definition SR : list Z :=
  [ 8; 9; 9; 11; 13; 15; 15; 5; 7; 7; 8; 11; 14; 14; 12; 6;
    9; 13; 15; 7; 12; 8; 9; 11; 7; 7; 12; 7; 6; 15; 13; 11;
    9; 7; 15; 11; 8; 6; 6; 14; 12; 13; 5; 14; 13; 13; 7; 5;
    15; 5; 8; 11; 14; 14; 6; 14; 6; 9; 12; 9; 12; 5; 15; 8;
    8; 5; 12; 9; 12; 5; 14; 6; 8; 13; 6; 5; 15; 13; 11; 11 ].

(** One step of a line: [fj] is the round function of the step. *)
Definition step (X : list Z) (fj : Z -> Z -> Z -> Z) (r : nat) (s k : Z)
  (st : list Z) : list Z :=
  match st with
  | [a; b; c; d; e] =>
      let t := w32 (rotl32 s (w32 (a + fj b c d + nth r X 0 + k)) + e) in
      [e; t; b; rotl32 10 c; d]
  | _ => st
  end.

Fixpoint line (X : list Z) (left : bool) (j : nat) (steps : nat) (st : list Z)
  : list Z :=
  match steps with
  | O => st
  | S steps' =>
      let st' :=
        if left
        then step X (f j) (nth j RL 0%nat) (nth j SL 0) (nth (j / 16) KL 0) st
        else step X (f (79 - j)) (nth j RR 0%nat) (nth j SR 0) (nth (j / 16) KR 0) st in
      line X left (S j) steps' st'
  end.

Definition compress (h : list Z) (block : bytes) : list Z :=
  let X := map (fun w => int_from_bytes (rev w)) (chunks 16 4 block) in
  match h, line X true 0 80 h, line X false 0 80 h with
  | [h0; h1; h2; h3; h4], [al; bl; cl; dl; el], [ar; br; cr; dr; er] =>
      [ w32 (h1 + cl + dr); w32 (h2 + dl + er); w32 (h3 + el + ar);
        w32 (h4 + al + br); w32 (h0 + bl + cr) ]
  | _, _, _ => h
  end.

(** Modelled from the spec: the RIPEMD-160 hash primitive, the
    [hashlib.new('ripemd160')] of the module. *)
Definition digest (m : bytes) : bytes :=
  let padded := md_pad (fun l => rev (be_bytes 8 l)) m in
  let blocks := chunks (List.length padded) 64 padded in
  List.concat (map (fun w => rev (be_bytes 4 w)) (fold_left compress blocks H0)).

End RIPEMD160.

Definition hashlib_digests : Hashlib := {|
  sha256 := SHA256.digest;
  ripemd160 := RIPEMD160.digest
|}.

(** Modelled from the spec: the Base58Check codec of the [base58] package,
    the standard alphabet with a four-octet double SHA-256 checksum. *)
Module Base58Check.

Definition alphabet : string :=
  "123456789ABCDEFGHJKLMNPQRSTUVWXYZabcdefghijkmnopqrstuvwxyz".

Fixpoint index_of (c : ascii) (l : list ascii) (i : Z) : option Z :=
  match l with
  | [] => None
  | a :: r => if Ascii.eqb a c then Some i else index_of c r (i + 1)
  end.

Fixpoint count_leading {A : Type} (is_pad : A -> bool) (l : list A) : nat :=
  match l with
  | [] => O
  | a :: r => if is_pad a then S (count_leading is_pad r) else O
  end.

(** The base-58 digits of [acc], least significant first. *)
Fixpoint digits58 (fuel : nat) (acc : Z) : list ascii :=
  match fuel with
  | O => []
  | S fuel' =>
      if acc <=? 0 then []
      else nth (Z.to_nat (acc mod 58)) (list_ascii_of_string alphabet) zero
             :: digits58 fuel' (acc / 58)
  end.

Definition is_zero_byte (b : byte) : bool := byte_to_Z b =? 0.

Definition b58encode (v : bytes) : string :=
  let npad := count_leading is_zero_byte v in
  let acc := int_from_bytes v in
  string_of_list_ascii
    (repeat "1"%char npad ++ rev (digits58 (2 * List.length v) acc)).

Fixpoint b58decode_int (l : list ascii) (acc : Z) : result Z :=
  match l with
  | [] => Ok acc
  | c :: r =>
      match index_of c (list_ascii_of_string alphabet) 0 with
      | Some d => b58decode_int r (acc * 58 + d)
      | None => Err ValueError
      end
  end.

(** The octets of [acc], least significant first. *)
Fixpoint octets (fuel : nat) (acc : Z) : bytes :=
  match fuel with
  | O => []
  | S fuel' =>
      if acc <=? 0 then []
      else byte_of_Z (acc mod 256) :: octets fuel' (acc / 256)
  end.

Definition b58decode (s : string) : result bytes :=
  let l := list_ascii_of_string s in
  let npad := count_leading (Ascii.eqb "1"%char) l in
  acc <- b58decode_int l 0 ;;
  Ok (repeat x00 npad ++ rev (octets (List.length l) acc)).

Definition checksum (payload : bytes) : bytes :=
  firstn 4 (SHA256.digest (SHA256.digest payload)).

Definition bytes_eqb (a b : bytes) : bool :=
  if list_eq_dec Strings.Byte.byte_eq_dec a b then true else false.

(** Modelled from the spec: Base58Check encoding, the standard alphabet
    with the first four octets of the double SHA-256 appended. *)
Definition encode_check (payload : bytes) : string :=
  b58encode (payload ++ checksum payload).

(** Modelled from the spec: Base58Check decoding; a character outside the
    alphabet and a checksum mismatch are ValueErrors. *)
Definition decode_check (s : string) : result bytes :=
  raw <- b58decode s ;;
  let split := (List.length raw - 4)%nat in
  let payload := firstn split raw in
  let check := skipn split raw in
  if bytes_eqb check (checksum payload) then Ok payload else Err ValueError.

End Base58Check.

Definition base58_codec : Base58 := {|
  b58encode_check := Base58Check.encode_check;
  b58decode_check := Base58Check.decode_check
|}.

(** Modelled from the spec: the curve engine [two1.crypto.ecdsa] on the
    fixed secp256k1 parameters; its code is not part of the module.  The
    spec fixes its contract: scalar multiplication of the generator, the
    curve-membership test, the recovery of [y] from [x], and the integer
    view of a point. *)
Module Secp256k1.

Definition p : Z :=
  0xFFFFFFFFFFFFFFFFFFFFFFFFFFFFFFFFFFFFFFFFFFFFFFFFFFFFFFFEFFFFFC2F.
Definition n : Z :=
  0xFFFFFFFFFFFFFFFFFFFFFFFFFFFFFFFEBAAEDCE6AF48A03BBFD25E8CD0364141.
Definition Gx : Z :=
  0x79BE667EF9DCBBAC55A06295CE870B07029BFCDB2DCE28D959F2815B16F81798.
Definition Gy : Z :=
  0x483ADA7726A3C4655DA4FBFC0E1108A8FD17B448A68554199C47D08FFB10D4B8.

(** Arithmetic modulo [p] on machine-word integers, so that the curve
    runs on 256-bit scalars. *)
Definition fadd (a b : bigZ) : bigZ := BigZ.modulo (BigZ.add a b) (BigZ.of_Z p).
Definition fsub (a b : bigZ) : bigZ := BigZ.modulo (BigZ.sub a b) (BigZ.of_Z p).
Definition fmul (a b : bigZ) : bigZ := BigZ.modulo (BigZ.mul a b) (BigZ.of_Z p).

Fixpoint fpow (base : bigZ) (e : positive) : bigZ :=
  match e with
  | xH => base
  | xO e' => let h := fpow base e' in fmul h h
  | xI e' => let h := fpow base e' in fmul (fmul h h) base
  end.

(** The inverse modulo the prime [p], by Fermat's little theorem. *)
Definition finv (a : bigZ) : bigZ := fpow a (Z.to_pos (p - 2)).

(** A point in Jacobian coordinates: [(X, Y, Z)] stands for the affine
    point [(X / Z^2, Y / Z^3)], and [Z = 0] for the point at infinity. *)
Definition jacobian : Type := (bigZ * bigZ * bigZ)%type.

Definition infinity : jacobian := (BigZ.one, BigZ.one, BigZ.zero).

(** Doubling on [y^2 = x^3 + 7]. *)
Definition double (a : jacobian) : jacobian :=
  let '(X, Y, Z1) := a in
  let A := fmul X X in
  let B := fmul Y Y in
  let C := fmul B B in
  let XB := fmul X B in
  let D := fadd (fadd XB XB) (fadd XB XB) in
  let E := fadd A (fadd A A) in
  let X3 := fsub (fmul E E) (fadd D D) in
  let C2 := fadd C C in
  let C4 := fadd C2 C2 in
  let YZ := fmul Y Z1 in
  (X3, fsub (fmul E (fsub D X3)) (fadd C4 C4), fadd YZ YZ).

(** Adding the affine point [(x2, y2)]. *)
Definition add_affine (a : jacobian) (x2 y2 : bigZ) : jacobian :=
  let '(X1, Y1, Z1) := a in
  if BigZ.eqb Z1 BigZ.zero then (x2, y2, BigZ.one)
  else
    let ZZ := fmul Z1 Z1 in
    let H := fsub (fmul x2 ZZ) X1 in
    let R := fsub (fmul (fmul y2 Z1) ZZ) Y1 in
    if BigZ.eqb H BigZ.zero then
      if BigZ.eqb R BigZ.zero then double a else infinity
    else
      let HH := fmul H H in
      let HHH := fmul H HH in
      let V := fmul X1 HH in
      let X3 := fsub (fsub (fmul R R) HHH) (fadd V V) in
      (X3, fsub (fmul R (fsub V X3)) (fmul Y1 HHH), fmul Z1 H).

(** Double-and-add on the bits of [k]. *)
Fixpoint mul_pos (k : positive) (x y : bigZ) : jacobian :=
  match k with
  | xH => (x, y, BigZ.one)
  | xO k' => double (mul_pos k' x y)
  | xI k' => add_affine (double (mul_pos k' x y)) x y
  end.

(** Back to affine coordinates; [None] is the point at infinity. *)
Definition to_affine (a : jacobian) : option (Z * Z) :=
  let '(X, Y, Z1) := a in
  if BigZ.eqb Z1 BigZ.zero then None
  else
    let zi := finv Z1 in
    let zi2 := fmul zi zi in
    Some (BigZ.to_Z (fmul X zi2), BigZ.to_Z (fmul (fmul Y zi2) zi)).

(** The scalar multiple [k * G] of the generator. *)
Definition mul (k : Z) : option (Z * Z) :=
  match k with
  | Z0 => None
  | Zpos k' => to_affine (mul_pos k' (BigZ.of_Z Gx) (BigZ.of_Z Gy))
  | Zneg k' =>
      match to_affine (mul_pos k' (BigZ.of_Z Gx) (BigZ.of_Z Gy)) with
      | Some (x, y) => Some (x, (- y) mod p)
      | None => None
      end
  end.

(** Modelled from the spec: [publicKeyFromScalar], the scalar multiple of
    the generator, in the packed integer view [(x << 256) + y] that
    [fromInt] reads back.  The spec gives the point at infinity no integer
    view; the model lets the engine raise there. *)
Definition public_key (k : Z) : result Z :=
  match mul k with
  | Some (x, y) => Ok (Z.shiftl x 256 + y)
  | None => Err EngineError
  end.

(** Modelled from the spec: [isOnCurve], the curve equation
    [y^2 = x^3 + 7] modulo [p]. *)
Definition is_on_curve (pt : ECPointAffine.t) : bool :=
  let x := ECPointAffine.x pt in
  let y := ECPointAffine.y pt in
  (y * y - (x * x * x + 7)) mod p =? 0.

(** Modelled from the spec: [yFromX], a square root of [x^3 + 7] modulo
    [p] (a power, as [p] is 3 modulo 4); the model lets the engine raise
    when there is none. *)
Definition y_from_x (x : Z) : result Z :=
  let rhs := (x * x * x + 7) mod p in
  let y := BigZ.to_Z (fpow (BigZ.of_Z rhs) (Z.to_pos ((p + 1) / 4))) in
  if (y * y) mod p =? rhs then Ok y else Err EngineError.

(** Modelled from the spec: [fromInt], [x] in the high bits and [y] in the
    low 256 bits. *)
Definition from_int (i : Z) : result ECPointAffine.t :=
  Ok (ECPointAffine.mk (Z.shiftr i 256) (Z.land i (2 ^ 256 - 1))).

End Secp256k1.

(** Modelled from the spec: the curve engine with the fixed secp256k1
    parameters, as [bitcoin_curve = secp256k1()] binds it. *)
Definition secp256k1 : EllipticCurve.t := {|
  EllipticCurve.p := Secp256k1.p;
  EllipticCurve.n := Secp256k1.n;
  EllipticCurve.public_key := Secp256k1.public_key;
  EllipticCurve.is_on_curve := Secp256k1.is_on_curve;
  EllipticCurve.y_from_x := Secp256k1.y_from_x;
  EllipticCurve.from_int := Secp256k1.from_int
|}.

(** Modelled from the spec: ECDSA signing and verification of the curve
    engine on secp256k1; its code is not part of the module.  The message
    is hashed with SHA-256; the spec leaves the choice of the nonce to the
    engine, and the model derives it from the key and the message. *)
Module Secp256k1ECDSA.

(** Products and powers modulo the group order [n]. *)
Definition nmul (a b : bigZ) : bigZ :=
  BigZ.modulo (BigZ.mul a b) (BigZ.of_Z Secp256k1.n).

Fixpoint npow (base : bigZ) (e : positive) : bigZ :=
  match e with
  | xH => base
  | xO e' => let h := npow base e' in nmul h h
  | xI e' => let h := npow base e' in nmul (nmul h h) base
  end.

(** The inverse modulo the prime [n]. *)
Definition ninv (a : Z) : Z :=
  BigZ.to_Z (npow (BigZ.of_Z a) (Z.to_pos (Secp256k1.n - 2))).

Definition hash_int (message : bytes) : Z :=
  int_from_bytes (SHA256.digest message).

(** A nonce of [1, n - 1], fixed by the key and the message. *)
Definition nonce (message : bytes) (key : Z) : Z :=
  1 + int_from_bytes
        (SHA256.digest (be_bytes 32 key ++ SHA256.digest message))
      mod (Secp256k1.n - 1).

(** [k * (x, y)] in Jacobian coordinates, for [0 <= k]. *)
Definition mul_point (k : Z) (x y : Z) : Secp256k1.jacobian :=
  match k with
  | Zpos k' => Secp256k1.mul_pos k' (BigZ.of_Z x) (BigZ.of_Z y)
  | _ => Secp256k1.infinity
  end.

Definition sign (message : bytes) (key : Z) : result ECPointAffine.t :=
  let z := hash_int message in
  let k := nonce message key in
  match Secp256k1.mul k with
  | None => Err EngineError
  | Some (x1, _) =>
      let r := x1 mod Secp256k1.n in
      let s := (ninv k * (z + r * key)) mod Secp256k1.n in
      if (r =? 0) || (s =? 0) then Err EngineError
      else Ok (ECPointAffine.mk r s)
  end.

Definition verify (message : bytes) (sig_pt public : ECPointAffine.t)
  : result bool :=
  let r := ECPointAffine.x sig_pt in
  let s := ECPointAffine.y sig_pt in
  if negb ((1 <=? r) && (r <? Secp256k1.n) && (1 <=? s) && (s <? Secp256k1.n))
  then Ok false
  else
    let z := hash_int message in
    let w := ninv s in
    let u1 := (z * w) mod Secp256k1.n in
    let u2 := (r * w) mod Secp256k1.n in
    let a := mul_point u1 Secp256k1.Gx Secp256k1.Gy in
    let b := mul_point u2 (ECPointAffine.x public) (ECPointAffine.y public) in
    let sum :=
      match Secp256k1.to_affine b with
      | None => a
      | Some (x2, y2) => Secp256k1.add_affine a (BigZ.of_Z x2) (BigZ.of_Z y2)
      end in
    match Secp256k1.to_affine sum with
    | None => Ok false
    | Some (x1, _) => Ok (x1 mod Secp256k1.n =? r)
    end.

End Secp256k1ECDSA.

Definition secp256k1_ecdsa : ECDSA.t := {|
  ECDSA.sign := Secp256k1ECDSA.sign;
  ECDSA.verify := Secp256k1ECDSA.verify
|}.

(** Splits a successful run of the error monad into its steps. *)
Ltac ok_steps H :=
  repeat match type of H with
         | bind ?m _ = Ok _ =>
             let E := fresh "E" in
             destruct m eqn:E; cbn [bind] in H; [|discriminate H]
         end.

(** * Properties *)

(** ** Octets and big-endian integers *)

Lemma byte_to_Z_range (b : byte) : 0 <= byte_to_Z b < 256.
Proof.
  unfold byte_to_Z. pose proof (Strings.Byte.to_N_bounded b). lia.
Qed.

Lemma byte_to_Z_of_Z (z : Z) : byte_to_Z (byte_of_Z z) = z mod 256.
Proof.
  unfold byte_to_Z, byte_of_Z.
  assert (Hm : 0 <= z mod 256 < 256) by (apply Z.mod_pos_bound; lia).
  destruct (Strings.Byte.of_N (Z.to_N (z mod 256))) as [b|] eqn:E.
  - apply Strings.Byte.to_of_N in E. rewrite E. lia.
  - apply Strings.Byte.of_N_None_iff in E. lia.
Qed.

Lemma byte_of_to_Z (b : byte) : byte_of_Z (byte_to_Z b) = b.
Proof.
  unfold byte_of_Z. pose proof (byte_to_Z_range b) as Hb.
  rewrite Z.mod_small by lia. unfold byte_to_Z.
  rewrite N2Z.id, Strings.Byte.of_to_N. reflexivity.
Qed.

Lemma be_bytes_length (len : nat) (z : Z) : List.length (be_bytes len z) = len.
Proof. induction len as [|m IH]; simpl; [reflexivity | now rewrite IH]. Qed.

Lemma int_from_bytes_acc (bs : bytes) (acc : Z) :
  fold_left (fun a b => a * 256 + byte_to_Z b) bs acc
  = acc * 2 ^ (8 * Z.of_nat (List.length bs)) + int_from_bytes bs.
Proof.
  unfold int_from_bytes. revert acc.
  induction bs as [|b bs IH]; intros acc.
  - simpl. lia.
  - cbn [fold_left List.length]. rewrite IH, (IH (0 * 256 + byte_to_Z b)).
    replace (8 * Z.of_nat (S (List.length bs)))
      with (8 + 8 * Z.of_nat (List.length bs)) by lia.
    rewrite Z.pow_add_r by lia. change (2 ^ 8) with 256. ring.
Qed.

Lemma int_from_bytes_cons (b : byte) (bs : bytes) :
  int_from_bytes (b :: bs)
  = byte_to_Z b * 2 ^ (8 * Z.of_nat (List.length bs)) + int_from_bytes bs.
Proof.
  unfold int_from_bytes at 1. cbn [fold_left].
  rewrite int_from_bytes_acc. f_equal.
Qed.

Lemma int_from_bytes_range (bs : bytes) :
  0 <= int_from_bytes bs < 2 ^ (8 * Z.of_nat (List.length bs)).
Proof.
  induction bs as [|b bs IH].
  - cbn. lia.
  - rewrite int_from_bytes_cons. pose proof (byte_to_Z_range b) as Hb.
    replace (8 * Z.of_nat (List.length (b :: bs)))
      with (8 + 8 * Z.of_nat (List.length bs)) by (cbn [List.length]; lia).
    rewrite Z.pow_add_r by lia. change (2 ^ 8) with 256.
    set (P := 2 ^ (8 * Z.of_nat (List.length bs))) in *.
    assert (byte_to_Z b * P <= 255 * P) by (apply Z.mul_le_mono_nonneg_r; lia).
    assert (0 <= byte_to_Z b * P) by (apply Z.mul_nonneg_nonneg; lia).
    lia.
Qed.

(** Reading [be_bytes len z] back gives the low [len] octets of [z]. *)
Lemma int_from_be_bytes (len : nat) (z : Z) :
  int_from_bytes (be_bytes len z) = z mod 2 ^ (8 * Z.of_nat len).
Proof.
  induction len as [|m IH].
  - cbn. now rewrite Z.mod_1_r.
  - cbn [be_bytes]. rewrite int_from_bytes_cons, be_bytes_length, IH.
    rewrite byte_to_Z_of_Z, Z.shiftr_div_pow2 by lia.
    replace (8 * Z.of_nat (S m)) with (8 * Z.of_nat m + 8) by lia.
    rewrite Z.pow_add_r by lia. change (2 ^ 8) with 256.
    rewrite Z.rem_mul_r by lia. ring.
Qed.

Lemma int_to_bytes_ok (z : Z) (len : nat) :
  0 <= z < 2 ^ (8 * Z.of_nat len) ->
  int_to_bytes z len = Ok (be_bytes len z).
Proof.
  intros Hz. unfold int_to_bytes.
  destruct (z <? 0) eqn:E1; [apply Z.ltb_lt in E1; lia|].
  destruct (2 ^ (8 * Z.of_nat len) <=? z) eqn:E2; [apply Z.leb_le in E2; lia|].
  reflexivity.
Qed.

Lemma int_to_bytes_inv (z : Z) (len : nat) (bs : bytes) :
  int_to_bytes z len = Ok bs ->
  0 <= z < 2 ^ (8 * Z.of_nat len) /\ bs = be_bytes len z.
Proof.
  unfold int_to_bytes.
  destruct (z <? 0) eqn:E1; [discriminate|].
  destruct (2 ^ (8 * Z.of_nat len) <=? z) eqn:E2; [discriminate|].
  intros H. inversion H. apply Z.ltb_ge in E1. apply Z.leb_gt in E2.
  split; [lia | reflexivity].
Qed.

Lemma int_from_to_bytes (z : Z) (len : nat) (bs : bytes) :
  int_to_bytes z len = Ok bs -> int_from_bytes bs = z /\ List.length bs = len.
Proof.
  intros H. apply int_to_bytes_inv in H as [Hz ->].
  rewrite int_from_be_bytes, be_bytes_length, Z.mod_small by lia. auto.
Qed.

Lemma firstn_exact {A : Type} (l tail : list A) :
  firstn (List.length l) (l ++ tail) = l.
Proof.
  rewrite firstn_app, Nat.sub_diag, firstn_all. cbn. apply app_nil_r.
Qed.

Lemma skipn_exact {A : Type} (l tail : list A) :
  skipn (List.length l) (l ++ tail) = tail.
Proof.
  rewrite skipn_app, Nat.sub_diag, skipn_all. reflexivity.
Qed.

(** The coordinate fields of an uncompressed serialization. *)
Lemma slice_uncompressed (xs ys : bytes) :
  List.length xs = 32%nat -> List.length ys = 32%nat ->
  slice 1 33 ([x04] ++ xs ++ ys) = xs /\ slice 33 65 ([x04] ++ xs ++ ys) = ys.
Proof.
  intros Hx Hy.
  assert (Hf : firstn 32 (xs ++ ys) = xs)
    by (rewrite <- Hx; apply firstn_exact).
  assert (Hs : skipn 32 (xs ++ ys) = ys)
    by (rewrite <- Hx; apply skipn_exact).
  assert (Ha : firstn 32 ys = ys) by (rewrite <- Hy; apply firstn_all).
  unfold slice. split.
  - change (firstn (33 - 1) (skipn 1 ([x04] ++ xs ++ ys)))
      with (firstn 32 (xs ++ ys)). exact Hf.
  - change (firstn (65 - 33) (skipn 33 ([x04] ++ xs ++ ys)))
      with (firstn 32 (skipn 32 (xs ++ ys))). rewrite Hs. exact Ha.
Qed.

(** ** The DER codec *)

Lemma twos_complement_len_pos (z : Z) : (1 <= twos_complement_len z)%nat.
Proof.
  unfold twos_complement_len.
  set (m := if z <? 0 then Z.lnot z else z).
  pose proof (Z.log2_nonneg m) as Hl.
  assert (0 <= (Z.log2 m + 1) / 8) by (apply Z.div_pos; lia). lia.
Qed.

(** The magnitude fits the octets below the sign bit. *)
Lemma twos_complement_len_fits (z : Z) :
  let w := 8 * Z.of_nat (twos_complement_len z) in
  - 2 ^ (w - 1) <= z < 2 ^ (w - 1).
Proof.
  unfold twos_complement_len.
  set (m := if z <? 0 then Z.lnot z else z).
  assert (Hm : 0 <= m).
  { subst m. destruct (z <? 0) eqn:E.
    - apply Z.ltb_lt in E. unfold Z.lnot. lia.
    - apply Z.ltb_ge in E. lia. }
  pose proof (Z.log2_nonneg m) as Hl.
  assert (Hq : 0 <= (Z.log2 m + 1) / 8) by (apply Z.div_pos; lia).
  rewrite Z2Nat.id by lia. cbv zeta.
  set (w := 8 * ((Z.log2 m + 1) / 8 + 1)).
  assert (Hw : Z.log2 m + 1 <= w - 1).
  { subst w. pose proof (Z.mod_pos_bound (Z.log2 m + 1) 8 ltac:(lia)).
    pose proof (Z.div_mod (Z.log2 m + 1) 8 ltac:(lia)). lia. }
  assert (Hb : m < 2 ^ (w - 1)).
  { destruct (Z.eq_dec m 0) as [->|Hne].
    - apply Z.pow_pos_nonneg; lia.
    - pose proof (Z.log2_spec m ltac:(lia)) as [_ Hs].
      eapply Z.lt_le_trans; [exact Hs|].
      apply Z.pow_le_mono_r; lia. }
  subst m. destruct (z <? 0) eqn:E.
  - apply Z.ltb_lt in E. unfold Z.lnot in Hb. lia.
  - apply Z.ltb_ge in E. lia.
Qed.

(** INTEGER contents round-trip for every integer: the sign octet that
    [integer_content] adds keeps a magnitude with its top bit set positive. *)
Lemma integer_value_content (z : Z) : integer_value (integer_content z) = z.
Proof.
  unfold integer_value, integer_content.
  rewrite int_from_be_bytes, be_bytes_length.
  pose proof (twos_complement_len_pos z) as Hp.
  pose proof (twos_complement_len_fits z) as Hf. cbv zeta in Hf.
  set (w := 8 * Z.of_nat (twos_complement_len z)) in *.
  assert (Hw : 0 < w) by lia.
  assert (H2 : 2 ^ w = 2 * 2 ^ (w - 1)).
  { rewrite <- Z.pow_succ_r by lia. f_equal. lia. }
  assert (Hpos : 0 < 2 ^ (w - 1)) by (apply Z.pow_pos_nonneg; lia).
  destruct (0 <? w) eqn:E0; [|apply Z.ltb_ge in E0; lia]. cbn [andb].
  destruct (Z_lt_le_dec z 0) as [Hneg|Hnn].
  - assert (Hmod : z mod 2 ^ w = z + 2 ^ w).
    { symmetry. apply Z.mod_unique with (q := -1); lia. }
    rewrite Hmod.
    destruct (2 ^ (w - 1) <=? z + 2 ^ w) eqn:E; [lia|].
    apply Z.leb_gt in E. lia.
  - rewrite Z.mod_small by lia.
    destruct (2 ^ (w - 1) <=? z) eqn:E; [apply Z.leb_le in E; lia|reflexivity].
Qed.

Lemma integer_content_length (z : Z) :
  0 <= z < 2 ^ 256 -> (List.length (integer_content z) <= 33)%nat.
Proof.
  intros Hz. unfold integer_content. rewrite be_bytes_length.
  unfold twos_complement_len.
  destruct (z <? 0) eqn:E; [apply Z.ltb_lt in E; lia|].
  assert (Hl : Z.log2 z < 256).
  { destruct (Z.eq_dec z 0) as [->|Hne]; [cbn; lia|].
    apply Z.log2_lt_pow2; lia. }
  pose proof (Z.log2_nonneg z).
  assert ((Z.log2 z + 1) / 8 <= 32).
  { apply Z.div_le_upper_bound; lia. }
  assert (0 <= (Z.log2 z + 1) / 8) by (apply Z.div_pos; lia).
  lia.
Qed.

Lemma decode_length_short (len : nat) (rest : bytes) :
  (len < 128)%nat ->
  decode_length (length_octets len ++ rest) = Ok (len, rest).
Proof.
  intros Hlen. unfold length_octets.
  destruct (Z.of_nat len <? 128) eqn:E; [|apply Z.ltb_ge in E; lia].
  cbn [app decode_length]. rewrite byte_to_Z_of_Z, Z.mod_small by lia.
  rewrite E, Nat2Z.id. reflexivity.
Qed.

(** Decoding one item whose content is [c], for the two tags of the model. *)
Lemma decode_item_integer (fuel : nat) (c tail : bytes) :
  (List.length c < 128)%nat ->
  decode_item (S fuel) (x02 :: length_octets (List.length c) ++ c ++ tail)
  = Ok (Asn1Integer (integer_value c), tail).
Proof.
  intros Hc. cbn [decode_item]. rewrite decode_length_short by exact Hc.
  cbn [bind]. rewrite length_app.
  destruct (List.length c + List.length tail <? List.length c)%nat eqn:E;
    [apply Nat.ltb_lt in E; lia|].
  rewrite firstn_exact, skipn_exact. reflexivity.
Qed.

Lemma decode_item_sequence (fuel : nat) (c tail : bytes) (items : list asn1) :
  (List.length c < 128)%nat ->
  decode_items fuel c = Ok items ->
  decode_item (S fuel) (x30 :: length_octets (List.length c) ++ c ++ tail)
  = Ok (Asn1Sequence items, tail).
Proof.
  intros Hc Hitems. cbn [decode_item]. rewrite decode_length_short by exact Hc.
  cbn [bind]. rewrite length_app.
  destruct (List.length c + List.length tail <? List.length c)%nat eqn:E;
    [apply Nat.ltb_lt in E; lia|].
  rewrite firstn_exact, skipn_exact, Hitems. reflexivity.
Qed.

Lemma encode_integer_length (z : Z) :
  0 <= z < 2 ^ 256 ->
  (3 <= List.length (encoder_encode (Asn1Integer z)) <= 35)%nat.
Proof.
  intros Hz. pose proof (integer_content_length z Hz) as Hc.
  pose proof (twos_complement_len_pos z) as Hp.
  cbn [encoder_encode List.length]. rewrite length_app.
  unfold length_octets.
  destruct (Z.of_nat (List.length (integer_content z)) <? 128) eqn:E;
    [|apply Z.ltb_ge in E; lia].
  unfold integer_content in *. rewrite be_bytes_length in *.
  cbn [List.length]. lia.
Qed.

(** The two INTEGERs of a point are read back from the SEQUENCE body. *)
Lemma decode_items_pair (fuel : nat) (a b : Z) :
  0 <= a < 2 ^ 256 -> 0 <= b < 2 ^ 256 ->
  decode_items (S (S (S fuel)))
    (encoder_encode (Asn1Integer a) ++ encoder_encode (Asn1Integer b))
  = Ok [Asn1Integer a; Asn1Integer b].
Proof.
  intros Ha Hb.
  pose proof (integer_content_length a Ha) as Hla.
  pose proof (integer_content_length b Hb) as Hlb.
  cbn [encoder_encode].
  change (decode_items (S (S (S fuel))) ?l)
    with (match l with
          | [] => Ok []
          | _ :: _ =>
              ir <- decode_item (S (S fuel)) l ;;
              let '(item, rest) := ir in
              items <- decode_items (S (S fuel)) rest ;;
              Ok (item :: items)
          end).
  cbn [app]. rewrite <- app_assoc.
  rewrite decode_item_integer by lia. cbn [bind].
  change (decode_items (S (S fuel)) ?l)
    with (match l with
          | [] => Ok []
          | _ :: _ =>
              ir <- decode_item (S fuel) l ;;
              let '(item, rest) := ir in
              items <- decode_items (S fuel) rest ;;
              Ok (item :: items)
          end).
  cbn [app].
  rewrite <- (app_nil_r (integer_content b)) at 2.
  rewrite decode_item_integer by lia. cbn [bind decode_items].
  rewrite !integer_value_content. reflexivity.
Qed.

Lemma decoder_decode_point (a b : Z) :
  0 <= a < 2 ^ 256 -> 0 <= b < 2 ^ 256 ->
  decoder_decode (der_encode_point (ECPointAffine.mk a b))
  = Ok (Asn1Sequence [Asn1Integer a; Asn1Integer b], []).
Proof.
  intros Ha Hb.
  pose proof (encode_integer_length a Ha) as Hea.
  pose proof (encode_integer_length b Hb) as Heb.
  unfold decoder_decode, der_encode_point, ECDERPoint.to_asn1.
  cbn [ECDERPoint.r ECDERPoint.s ECPointAffine.x ECPointAffine.y].
  change (encoder_encode (Asn1Sequence [Asn1Integer a; Asn1Integer b]))
    with (let c := encoder_encode (Asn1Integer a)
                   ++ encoder_encode (Asn1Integer b) ++ [] in
          x30 :: length_octets (List.length c) ++ c).
  cbv zeta. rewrite app_nil_r.
  set (c := encoder_encode (Asn1Integer a) ++ encoder_encode (Asn1Integer b)).
  assert (Hc : (6 <= List.length c <= 70)%nat)
    by (subst c; rewrite length_app; lia).
  cbn [List.length]. rewrite length_app.
  assert (Hlo : (1 <= List.length (length_octets (List.length c)))%nat).
  { unfold length_octets. destruct (_ <? 128); cbn [List.length]; lia. }
  destruct (List.length (length_octets (List.length c)) + List.length c)%nat
    as [|[|[|fuel]]] eqn:Ef; try lia.
  rewrite <- (app_nil_r c) at 2.
  apply decode_item_sequence; [lia|].
  subst c. apply decode_items_pair; assumption.
Qed.

(** *** The decoder's fuel *)

Lemma decode_length_consumes (bs rest : bytes) (len : nat) :
  decode_length bs = Ok (len, rest) ->
  (List.length rest + 1 <= List.length bs)%nat.
Proof.
  destruct bs as [|b after]; cbn [decode_length]; [discriminate|].
  destruct (byte_to_Z b <? 128).
  - intros H. inversion H; subst. cbn [List.length]. lia.
  - destruct (byte_to_Z b =? 128); [discriminate|].
    destruct (List.length after <? Z.to_nat (byte_to_Z b - 128))%nat;
      [discriminate|].
    intros H. inversion H; subst. cbn [List.length].
    rewrite length_skipn. lia.
Qed.

Lemma decode_item_consumes (fuel : nat) (bs rest : bytes) (v : asn1) :
  decode_item fuel bs = Ok (v, rest) ->
  (List.length rest + 2 <= List.length bs)%nat.
Proof.
  destruct fuel as [|fuel]; cbn [decode_item]; [discriminate|].
  destruct bs as [|tag after]; [discriminate|].
  destruct (decode_length after) as [[len rest']|e] eqn:El; cbn [bind];
    [|discriminate].
  apply decode_length_consumes in El.
  destruct (List.length rest' <? len)%nat; [discriminate|].
  assert (Hs : (List.length (skipn len rest') <= List.length rest')%nat)
    by (rewrite length_skipn; lia).
  destruct (Strings.Byte.eqb tag x02).
  - intros H. inversion H; subst. cbn [List.length]. lia.
  - destruct (Strings.Byte.eqb tag x30); [|discriminate].
    destruct (decode_items fuel (firstn len rest')); cbn [bind];
      [|discriminate].
    intros H. inversion H; subst. cbn [List.length]. lia.
Qed.

(** Fuel beyond the length of the input changes nothing, at any nesting. *)
Lemma decode_fuel_stable (fuel : nat) :
  (forall bs more,
      (List.length bs < fuel)%nat -> (fuel <= more)%nat ->
      decode_item more bs = decode_item fuel bs) /\
  (forall bs more,
      (List.length bs + 2 <= fuel)%nat -> (fuel <= more)%nat ->
      decode_items more bs = decode_items fuel bs).
Proof.
  induction fuel as [|fuel [IHitem IHitems]]; [split; intros; lia|].
  split.
  - intros bs more Hlen Hmore.
    destruct more as [|more]; [lia|]. cbn [decode_item].
    destruct bs as [|tag after]; [reflexivity|].
    destruct (decode_length after) as [[len rest]|e] eqn:El; cbn [bind];
      [|reflexivity].
    apply decode_length_consumes in El. cbn [List.length] in Hlen.
    destruct (List.length rest <? len)%nat; [reflexivity|].
    destruct (Strings.Byte.eqb tag x02); [reflexivity|].
    destruct (Strings.Byte.eqb tag x30); [|reflexivity].
    rewrite (IHitems (firstn len rest) more); [reflexivity| |lia].
    rewrite length_firstn. lia.
  - intros bs more Hlen Hmore.
    destruct more as [|more]; [lia|]. cbn [decode_items].
    destruct bs as [|b bs']; [reflexivity|].
    rewrite (IHitem (b :: bs') more) by lia.
    destruct (decode_item fuel (b :: bs')) as [[item rest]|e] eqn:Ei;
      cbn [bind]; [|reflexivity].
    apply decode_item_consumes in Ei.
    rewrite (IHitems rest more) by lia. reflexivity.
Qed.

(** [decoder_decode] never fails for want of fuel: any larger supply gives
    the same value or the same error. *)
Lemma decode_item_fuel (der : bytes) (more : nat) :
  (List.length der < more)%nat ->
  decode_item more der = decoder_decode der.
Proof.
  intros H. unfold decoder_decode.
  apply (proj1 (decode_fuel_stable (S (List.length der)))); lia.
Qed.

(** ** The field arithmetic of the curve model *)

Lemma fadd_spec (a b : bigZ) :
  BigZ.to_Z (Secp256k1.fadd a b)
  = (BigZ.to_Z a + BigZ.to_Z b) mod Secp256k1.p.
Proof.
  unfold Secp256k1.fadd.
  rewrite BigZ.spec_modulo, BigZ.spec_add, BigZ.spec_of_Z. reflexivity.
Qed.

Lemma fsub_spec (a b : bigZ) :
  BigZ.to_Z (Secp256k1.fsub a b)
  = (BigZ.to_Z a - BigZ.to_Z b) mod Secp256k1.p.
Proof.
  unfold Secp256k1.fsub.
  rewrite BigZ.spec_modulo, BigZ.spec_sub, BigZ.spec_of_Z. reflexivity.
Qed.

Lemma fmul_spec (a b : bigZ) :
  BigZ.to_Z (Secp256k1.fmul a b)
  = (BigZ.to_Z a * BigZ.to_Z b) mod Secp256k1.p.
Proof.
  unfold Secp256k1.fmul.
  rewrite BigZ.spec_modulo, BigZ.spec_mul, BigZ.spec_of_Z. reflexivity.
Qed.

(** [fpow] is the power modulo [p]. *)
Lemma fpow_spec (a : bigZ) (e : positive) :
  BigZ.to_Z (Secp256k1.fpow a e) mod Secp256k1.p
  = (BigZ.to_Z a ^ Zpos e) mod Secp256k1.p.
Proof.
  induction e as [e IH | e IH |]; cbn [Secp256k1.fpow].
  - rewrite !fmul_spec, Z.mod_mod by discriminate.
    set (h := BigZ.to_Z (Secp256k1.fpow a e)) in *.
    assert (Hsq : (h * h) mod Secp256k1.p
                  = (BigZ.to_Z a ^ Z.pos e * BigZ.to_Z a ^ Z.pos e)
                    mod Secp256k1.p)
      by (rewrite Z.mul_mod, IH, <- Z.mul_mod by discriminate; reflexivity).
    rewrite Hsq, Z.mul_mod_idemp_l by discriminate.
    f_equal. rewrite Pos2Z.inj_xI, Z.pow_add_r, Z.pow_1_r by lia.
    replace (2 * Z.pos e) with (Z.pos e + Z.pos e) by lia.
    rewrite Z.pow_add_r by lia. reflexivity.
  - rewrite fmul_spec, Z.mod_mod by discriminate.
    rewrite Z.mul_mod, IH, <- Z.mul_mod by discriminate.
    f_equal. rewrite Pos2Z.inj_xO.
    replace (2 * Z.pos e) with (Z.pos e + Z.pos e) by lia.
    rewrite Z.pow_add_r by lia. reflexivity.
  - rewrite Z.pow_1_r. reflexivity.
Qed.

(** ** Keys, over any collaborators *)

Section Keys.
Context {bitcoin_curve : EllipticCurve.t} {hashlib : Hashlib} {base58 : Base58}.

Lemma py_assert_ok (c : bool) (a : assertion) (u : unit) :
  py_assert c a = Ok u -> c = true.
Proof. destruct c; [reflexivity | discriminate]. Qed.

Lemma PublicKey_bytes_inv (pk : PublicKey.t) (ser : bytes) :
  PublicKey.__bytes__ pk = Ok ser ->
  let x := ECPointAffine.x (PublicKey.point pk) in
  let y := ECPointAffine.y (PublicKey.point pk) in
  0 <= x < 2 ^ 256 /\ 0 <= y < 2 ^ 256 /\
  ser = [x04] ++ be_bytes 32 x ++ be_bytes 32 y.
Proof.
  unfold PublicKey.__bytes__. intros H. ok_steps H.
  apply int_to_bytes_inv in E as [Hx ->].
  apply int_to_bytes_inv in E0 as [Hy ->].
  change (2 ^ (8 * Z.of_nat 32)) with (2 ^ 256) in *.
  inversion H. auto.
Qed.

(** What a successful [PublicKey(x, y, testnet)] has checked and stored. *)
Lemma PublicKey_init_inv (x y : Z) (testnet : bool) (pk : PublicKey.t) :
  PublicKey.__init__ x y testnet = Ok pk ->
  EllipticCurve.is_on_curve (ECPointAffine.mk x y) = true /\
  0 <= x < 2 ^ 256 /\ 0 <= y < 2 ^ 256 /\
  let ser := [x04] ++ be_bytes 32 x ++ be_bytes 32 y in
  let address := [if testnet then x6f else x00] ++ ripemd160 (sha256 ser) in
  pk = PublicKey.mk (ECPointAffine.mk x y) testnet address
         (b58encode_check address).
Proof.
  unfold PublicKey.__init__. intros H. ok_steps H.
  apply py_assert_ok in E.
  apply PublicKey_bytes_inv in E0 as (Hx & Hy & ->).
  cbn [PublicKey.point ECPointAffine.x ECPointAffine.y] in *.
  inversion H. destruct testnet; auto.
Qed.

Lemma PublicKey_init_off_curve (x y : Z) (testnet : bool) :
  EllipticCurve.is_on_curve (ECPointAffine.mk x y) = false ->
  PublicKey.__init__ x y testnet = Err (AssertionError assert_is_on_curve).
Proof. intros H. unfold PublicKey.__init__. rewrite H. reflexivity. Qed.

Lemma from_bytes_in_some (globals : namespace) (b : value) (testnet : bool)
  (pk : PublicKey.t) :
  PublicKey.from_bytes_in globals b testnet = Ok (Some pk) ->
  exists x y, PublicKey.__init__ x y testnet = Ok pk.
Proof.
  unfold PublicKey.from_bytes_in. intros H. ok_steps H.
  destruct (a3 =? 4).
  - ok_steps H. inversion H; subst. eauto.
  - destruct ((a3 =? 2) || (a3 =? 3)).
    + ok_steps H. inversion H; subst. eauto.
    + discriminate H.
Qed.

(** Every constructor ends in [PublicKey(x, y, testnet)]. *)
Lemma constructed_by_init (pk : PublicKey.t) :
  PublicKey.constructed pk ->
  exists x y testnet, PublicKey.__init__ x y testnet = Ok pk.
Proof.
  intros [x y tn pk' H | p tn pk' H | i tn pk' H | d tn pk' H | g b tn pk' H].
  - eauto.
  - unfold PublicKey.from_point in H. eauto.
  - unfold PublicKey.from_int in H. ok_steps H.
    unfold PublicKey.from_point in H. eauto.
  - unfold PublicKey.from_der in H. ok_steps H.
    unfold PublicKey.from_point in H. eauto.
  - apply from_bytes_in_some in H as (x & y & H). eauto.
Qed.

Lemma PrivateKey_init_inv (k : Z) (testnet : bool) (sk : PrivateKey.t) :
  PrivateKey.__init__ k testnet = Ok sk ->
  exists i public,
    EllipticCurve.public_key k = Ok i /\
    PublicKey.from_int i testnet = Ok public /\
    sk = PrivateKey.mk k
           (if testnet then PrivateKey.TESTNET_VERSION
            else PrivateKey.MAINNET_VERSION)
           public.
Proof.
  unfold PrivateKey.__init__. intros H. ok_steps H.
  inversion H. eauto.
Qed.

Lemma PrivateKey_bytes_of_init (k : Z) (testnet : bool) (sk : PrivateKey.t) :
  PrivateKey.__init__ k testnet = Ok sk ->
  0 <= k < 2 ^ 256 ->
  PrivateKey.__bytes__ sk
  = Ok (byte_of_Z (if testnet then 0xEF else 0x80) :: be_bytes 32 k).
Proof.
  intros H Hk. apply PrivateKey_init_inv in H as (i & public & _ & _ & ->).
  unfold PrivateKey.__bytes__. cbn [PrivateKey.version PrivateKey.key].
  rewrite int_to_bytes_ok by (change (2 ^ (8 * Z.of_nat 32)) with (2 ^ 256); lia).
  destruct testnet; reflexivity.
Qed.

(** C1 (as amended).  [PrivateKey(k, testnet)] and [from_int] check no
    range: the result is decided by what the curve engine returns for [k]
    and by the public-key constructor.  Construction succeeds exactly when
    [bitcoin_curve.public_key(k)] returns an integer from which
    [PublicKey.from_int] builds a key; the key then stores [k] itself, the
    version of the network and that public key, derived at construction.  A
    failure is the engine's or the public-key constructor's exception, and
    two scalars the engine maps to the same integer succeed or fail
    together. *)
Theorem PrivateKey_init_unchecked :
  forall (k : Z) (testnet : bool),
    (forall sk,
        PrivateKey.__init__ k testnet = Ok sk <->
        exists i public,
          EllipticCurve.public_key k = Ok i /\
          PublicKey.from_int i testnet = Ok public /\
          sk = PrivateKey.mk k
                 (if testnet then PrivateKey.TESTNET_VERSION
                  else PrivateKey.MAINNET_VERSION)
                 public) /\
    (forall e,
        PrivateKey.__init__ k testnet = Err e <->
        EllipticCurve.public_key k = Err e \/
        exists i,
          EllipticCurve.public_key k = Ok i /\
          PublicKey.from_int i testnet = Err e) /\
    PrivateKey.from_int k testnet = PrivateKey.__init__ k testnet /\
    (forall k',
        EllipticCurve.public_key k = EllipticCurve.public_key k' ->
        is_ok (PrivateKey.__init__ k testnet)
        = is_ok (PrivateKey.__init__ k' testnet)).
Proof.
  intros k testnet. repeat split.
  - apply PrivateKey_init_inv.
  - intros (i & public & Hi & Hp & ->).
    unfold PrivateKey.__init__. rewrite Hi. cbn [bind]. rewrite Hp. reflexivity.
  - unfold PrivateKey.__init__.
    destruct (EllipticCurve.public_key k) as [i|e']; cbn [bind].
    + destruct (PublicKey.from_int i testnet) as [pub|e''] eqn:Ep; cbn [bind].
      * discriminate.
      * intros H. right. exists i. split; [reflexivity|].
        rewrite Ep. inversion H. reflexivity.
    + intros H. left. inversion H. reflexivity.
  - unfold PrivateKey.__init__.
    intros [H | (i & Hi & Hp)].
    + rewrite H. reflexivity.
    + rewrite Hi. cbn [bind]. rewrite Hp. reflexivity.
  - intros k' Hk. unfold PrivateKey.__init__. rewrite <- Hk.
    destruct (EllipticCurve.public_key k) as [i|e]; cbn [bind]; [|reflexivity].
    destruct (PublicKey.from_int i testnet); reflexivity.
Qed.

(** C4.  Curve membership is an invariant of every public key the module
    constructs: whichever constructor built it (the constructor itself,
    [from_point], [from_int], [from_der], or [from_bytes] under any binding
    of its names), its point passes the engine's [is_on_curve].  Given
    coordinates that are not on the curve, the constructor, [from_point],
    [from_int] and [from_der] fail with the AssertionError of
    [assert bitcoin_curve.is_on_curve(p)], the module's PointNotOnCurve.
    So does the body of [from_bytes] where [key_bytes] and [key] are bound,
    in the uncompressed branch (the coordinates read from [key_bytes[1:32]]
    and [key_bytes[32:65]]) and in the compressed branch (the root chosen
    by parity).  In the module as it stands neither name is bound, and
    [from_bytes] raises NameError for every input, coordinates off the
    curve included, where the claim has PointNotOnCurve. *)
Theorem PublicKey_point_on_curve :
  (forall pk,
      PublicKey.constructed pk ->
      EllipticCurve.is_on_curve (PublicKey.point pk) = true) /\
  (forall x y testnet,
      EllipticCurve.is_on_curve (ECPointAffine.mk x y) = false ->
      PublicKey.__init__ x y testnet = Err (AssertionError assert_is_on_curve) /\
      PublicKey.from_point (ECPointAffine.mk x y) testnet
      = Err (AssertionError assert_is_on_curve) /\
      (forall i,
          EllipticCurve.from_int i = Ok (ECPointAffine.mk x y) ->
          PublicKey.from_int i testnet = Err (AssertionError assert_is_on_curve)) /\
      (forall d,
          der_decode_point bitcoin_curve d = Ok (ECPointAffine.mk x y) ->
          PublicKey.from_der d testnet = Err (AssertionError assert_is_on_curve))) /\
  (forall globals b testnet pk,
      PublicKey.from_bytes_in globals b testnet = Ok (Some pk) ->
      exists x y, PublicKey.__init__ x y testnet = Ok pk) /\
  (forall globals b testnet kb key prefix key_type,
      load_global globals builtins "key_bytes" = Ok (VBytes kb) ->
      load_global globals builtins "key" = Ok key ->
      py_slice 0 2 key = Ok prefix ->
      py_int prefix = Ok key_type ->
      (key_type = 4 ->
       List.length kb = 65%nat ->
       EllipticCurve.is_on_curve
         (ECPointAffine.mk (int_from_bytes (slice 1 32 kb))
                           (int_from_bytes (slice 32 65 kb))) = false ->
       PublicKey.from_bytes_in globals b testnet
       = Err (AssertionError assert_is_on_curve)) /\
      (key_type = 2 \/ key_type = 3 ->
       List.length kb = 33%nat ->
       forall y0,
         EllipticCurve.y_from_x (int_from_bytes (slice 1 32 kb)) = Ok y0 ->
         EllipticCurve.is_on_curve
           (ECPointAffine.mk (int_from_bytes (slice 1 32 kb))
              (if negb (y0 mod 2 =? key_type - 2)
               then (- y0) mod EllipticCurve.p
               else y0)) = false ->
         PublicKey.from_bytes_in globals b testnet
         = Err (AssertionError assert_is_on_curve))) /\
  (forall b testnet,
      PublicKey.from_bytes b testnet = Err (NameError "key_bytes")).
Proof.
  split; [|split; [|split; [|split]]].
  - intros pk Hc.
    apply constructed_by_init in Hc as (x & y & tn & H).
    apply PublicKey_init_inv in H as (Hon & _ & _ & ->). exact Hon.
  - intros x y testnet Hoff.
    pose proof (PublicKey_init_off_curve x y testnet Hoff) as Hinit.
    split; [exact Hinit|]. split; [exact Hinit|]. split.
    + intros i Hi. unfold PublicKey.from_int. rewrite Hi. exact Hinit.
    + intros d Hd. unfold PublicKey.from_der. rewrite Hd. exact Hinit.
  - apply from_bytes_in_some.
  - intros globals b testnet kb key prefix key_type Hkb Hkey Hpre Hint.
    unfold PublicKey.from_bytes_in.
    rewrite Hkb. cbn [bind py_len]. rewrite Hkey. cbn [bind].
    rewrite Hpre. cbn [bind]. rewrite Hint. cbn [bind].
    split.
    + intros -> Hlen Hoff. cbn [Z.eqb Pos.eqb]. rewrite Hlen.
      change (Z.of_nat 65 =? 65) with true.
      cbn [py_assert bind py_slice py_int_from_bytes].
      rewrite (PublicKey_init_off_curve _ _ testnet Hoff). reflexivity.
    + intros Hkt Hlen y0 Hy0 Hoff.
      destruct (key_type =? 4) eqn:E4; [apply Z.eqb_eq in E4; lia|].
      assert (E23 : (key_type =? 2) || (key_type =? 3) = true)
        by (destruct Hkt as [-> | ->]; reflexivity).
      rewrite E23, Hlen.
      change (Z.of_nat 33 =? 33) with true.
      cbn [py_assert bind py_slice py_int_from_bytes].
      rewrite Hy0. cbn [bind].
      rewrite (PublicKey_init_off_curve _ _ testnet Hoff). reflexivity.
  - intros b testnet.
    assert (Hkb : load_global module_globals builtins "key_bytes"
                  = Err (NameError "key_bytes")) by (vm_compute; reflexivity).
    unfold PublicKey.from_bytes, PublicKey.from_bytes_in.
    rewrite Hkb. reflexivity.
Qed.

(** C6.  For every public key the module constructs, [bytes(pk)] is the
    65-octet serialization [0x04 || x || y] with both coordinates 32 octets
    big-endian; the stored address is the version octet (0x00 for Mainnet,
    0x6F for Testnet) followed by the RIPEMD-160 of the SHA-256 of that
    serialization, 21 octets when the digest has its 20; the stored Base58
    address is the Base58Check encoding of the address octets.  Both are
    computed by the constructor and the properties return what is stored. *)
Theorem PublicKey_address_pipeline :
  forall pk,
    PublicKey.constructed pk ->
    exists ser,
      PublicKey.__bytes__ pk = Ok ser /\
      ser = [x04] ++ be_bytes 32 (ECPointAffine.x (PublicKey.point pk))
                  ++ be_bytes 32 (ECPointAffine.y (PublicKey.point pk)) /\
      List.length ser = 65%nat /\
      int_from_bytes (slice 1 33 ser) = ECPointAffine.x (PublicKey.point pk) /\
      int_from_bytes (slice 33 65 ser) = ECPointAffine.y (PublicKey.point pk) /\
      PublicKey.address pk
      = (if PublicKey.testnet pk then x6f else x00) :: ripemd160 (sha256 ser) /\
      PublicKey.address pk = PublicKey._address pk /\
      PublicKey.b58address pk = b58encode_check (PublicKey.address pk) /\
      PublicKey.b58address pk = PublicKey._b58address pk /\
      (List.length (ripemd160 (sha256 ser)) = 20%nat ->
       List.length (PublicKey.address pk) = 21%nat).
Proof.
  intros pk Hc.
  apply constructed_by_init in Hc as (x & y & tn & H).
  apply PublicKey_init_inv in H as (_ & Hx & Hy & ->). cbv zeta.
  exists ([x04] ++ be_bytes 32 x ++ be_bytes 32 y).
  unfold PublicKey.__bytes__, PublicKey.address, PublicKey.b58address.
  cbn [PublicKey.point PublicKey.testnet PublicKey._address
       PublicKey._b58address ECPointAffine.x ECPointAffine.y].
  rewrite !int_to_bytes_ok
    by (change (2 ^ (8 * Z.of_nat 32)) with (2 ^ 256); lia).
  cbn [bind].
  destruct (slice_uncompressed (be_bytes 32 x) (be_bytes 32 y)
              (be_bytes_length 32 x) (be_bytes_length 32 y)) as [Hsx Hsy].
  split; [reflexivity|]. split; [reflexivity|].
  split.
  { cbn [app List.length]. rewrite length_app, !be_bytes_length. reflexivity. }
  split.
  { rewrite Hsx, int_from_be_bytes.
    change (2 ^ (8 * Z.of_nat 32)) with (2 ^ 256). apply Z.mod_small; lia. }
  split.
  { rewrite Hsy, int_from_be_bytes.
    change (2 ^ (8 * Z.of_nat 32)) with (2 ^ 256). apply Z.mod_small; lia. }
  split; [destruct tn; reflexivity|].
  split; [reflexivity|]. split; [reflexivity|]. split; [reflexivity|].
  intros Hr. cbn [app List.length] in *. rewrite Hr. reflexivity.
Qed.

(** C7.  For every valid scalar [1 <= k < n] (the order [n] within 256
    bits) and either network, [bytes(PrivateKey(k))] is the version octet
    followed by the 32-octet big-endian, zero-padded scalar: 33 octets whose
    last 32 read back as [k].  For scalar 1 on Mainnet these are 0x80, 31
    zero octets and 0x01. *)
Theorem PrivateKey_bytes_layout :
  forall (k : Z) (testnet : bool) (sk : PrivateKey.t),
    1 <= k < EllipticCurve.n ->
    EllipticCurve.n <= 2 ^ 256 ->
    PrivateKey.__init__ k testnet = Ok sk ->
    exists body,
      PrivateKey.__bytes__ sk = Ok (byte_of_Z (PrivateKey.version sk) :: body) /\
      PrivateKey.version sk = (if testnet then 0xEF else 0x80) /\
      body = be_bytes 32 k /\
      List.length body = 32%nat /\
      int_from_bytes body = k /\
      (k = 1 -> testnet = false ->
       PrivateKey.__bytes__ sk = Ok (x80 :: repeat x00 31 ++ [x01])).
Proof.
  intros k testnet sk Hk Hn Hinit.
  pose proof (PrivateKey_bytes_of_init k testnet sk Hinit ltac:(lia)) as Hb.
  apply PrivateKey_init_inv in Hinit as (i & public & _ & _ & ->).
  cbn [PrivateKey.version] in *.
  exists (be_bytes 32 k).
  split; [rewrite Hb; destruct testnet; reflexivity|].
  split; [destruct testnet; reflexivity|].
  split; [reflexivity|].
  split; [apply be_bytes_length|].
  split.
  - rewrite int_from_be_bytes.
    change (2 ^ (8 * Z.of_nat 32)) with (2 ^ 256). apply Z.mod_small; lia.
  - intros -> ->. rewrite Hb. reflexivity.
Qed.

(** C8.  [from_b58check] reads the first decoded octet as the version:
    0x80 gives a Mainnet key and 0xEF a Testnet key built from the remaining
    octets read big-endian, and any other version fails the assertion on
    the version, the module's UnknownVersion.  So for every valid key for
    which the Base58Check codec decodes what it encoded,
    [from_b58check(to_b58check())] gives the same key back: the same scalar
    and network. *)
Theorem from_b58check_versions_and_round_trip :
  (forall (s : string) (v : byte) (rest : bytes),
      b58decode_check s = Ok (v :: rest) ->
      PrivateKey.from_b58check s
      = if byte_to_Z v =? 0x80
        then PrivateKey.__init__ (int_from_bytes rest) false
        else if byte_to_Z v =? 0xEF
             then PrivateKey.__init__ (int_from_bytes rest) true
             else Err (AssertionError assert_version_known)) /\
  (forall (k : Z) (testnet : bool) (sk : PrivateKey.t),
      1 <= k < EllipticCurve.n ->
      EllipticCurve.n <= 2 ^ 256 ->
      PrivateKey.__init__ k testnet = Ok sk ->
      (forall bs,
          PrivateKey.__bytes__ sk = Ok bs ->
          b58decode_check (b58encode_check bs) = Ok bs) ->
      exists s,
        PrivateKey.to_b58check sk = Ok s /\
        PrivateKey.from_b58check s = Ok sk /\
        PrivateKey.key sk = k /\
        PrivateKey.version sk = (if testnet then 0xEF else 0x80)).
Proof.
  split.
  - intros s v rest Hdec. unfold PrivateKey.from_b58check.
    rewrite Hdec. cbn [bind].
    unfold PrivateKey.TESTNET_VERSION, PrivateKey.MAINNET_VERSION.
    destruct (byte_to_Z v =? 128) eqn:E80.
    + apply Z.eqb_eq in E80. rewrite E80. reflexivity.
    + destruct (byte_to_Z v =? 239) eqn:EEF; reflexivity.
  - intros k testnet sk Hk Hn Hinit Hcodec.
    pose proof (PrivateKey_bytes_of_init k testnet sk Hinit ltac:(lia)) as Hb.
    exists (b58encode_check
              (byte_of_Z (if testnet then 0xEF else 0x80) :: be_bytes 32 k)).
    assert (Hkey : PrivateKey.key sk = k /\
                   PrivateKey.version sk = (if testnet then 0xEF else 0x80)).
    { apply PrivateKey_init_inv in Hinit as (i & public & _ & _ & ->).
      destruct testnet; split; reflexivity. }
    split; [|split; [|exact Hkey]].
    + unfold PrivateKey.to_b58check. rewrite Hb. reflexivity.
    + unfold PrivateKey.from_b58check.
      rewrite (Hcodec _ Hb). cbn [bind].
      rewrite byte_to_Z_of_Z, int_from_be_bytes.
      change (2 ^ (8 * Z.of_nat 32)) with (2 ^ 256).
      rewrite (Z.mod_small k) by lia.
      destruct testnet; exact Hinit.
Qed.

(** C9.  Every key [from_random] can return has a scalar of [1, n - 2]:
    [randrange(1, n - 1)] leaves its upper bound out, so the scalar is never
    0 and never [n] or more, and it is never [n - 1] either. *)
Theorem from_random_scalar_range :
  forall (testnet : bool) (sk : PrivateKey.t),
    PrivateKey.from_random testnet (Ok sk) ->
    1 <= PrivateKey.key sk <= EllipticCurve.n - 2.
Proof.
  intros testnet sk H.
  inversion H as [d Hd Hres].
  destruct Hd as [r Hr | Hempty]; cbn [bind] in Hres; [|discriminate Hres].
  apply PrivateKey_init_inv in Hres as (i & public & _ & _ & ->).
  cbn [PrivateKey.key]. lia.
Qed.

(** C10.  In the module as it stands, [PublicKey.from_bytes] raises a
    NameError for every input, at its first statement: neither [key_bytes]
    nor [key] is bound, as a global of the module or as a builtin, and the
    body never assigns them from [b].  No input reaches the prefix dispatch
    and none returns a public key. *)
Theorem from_bytes_unbound_name :
  forall (b : value) (testnet : bool),
    PublicKey.from_bytes b testnet = Err (NameError "key_bytes") /\
    load_global module_globals builtins "key_bytes" = Err (NameError "key_bytes") /\
    load_global module_globals builtins "key" = Err (NameError "key").
Proof.
  intros b testnet.
  assert (Hkb : load_global module_globals builtins "key_bytes"
                = Err (NameError "key_bytes")) by (vm_compute; reflexivity).
  assert (Hk : load_global module_globals builtins "key"
               = Err (NameError "key")) by (vm_compute; reflexivity).
  split; [|split; assumption].
  unfold PublicKey.from_bytes, PublicKey.from_bytes_in.
  rewrite Hkb. reflexivity.
Qed.

(** C3 (as amended).  Where the prefix dispatch of [from_bytes] runs, with
    [key_bytes] and [key] bound, a key type other than 2, 3 and 4 makes it
    return [None]: no public key is built and no exception is raised. *)
Theorem from_bytes_unknown_prefix_returns_None :
  forall (globals : namespace) (b : value) (testnet : bool)
         (key_bytes key prefix : value) (len key_type : Z),
    load_global globals builtins "key_bytes" = Ok key_bytes ->
    py_len key_bytes = Ok len ->
    load_global globals builtins "key" = Ok key ->
    py_slice 0 2 key = Ok prefix ->
    py_int prefix = Ok key_type ->
    key_type <> 0x04 -> key_type <> 0x02 -> key_type <> 0x03 ->
    PublicKey.from_bytes_in globals b testnet = Ok None.
Proof.
  intros globals b testnet key_bytes key prefix len key_type
         Hkb Hlen Hkey Hpre Hint H4 H2 H3.
  unfold PublicKey.from_bytes_in.
  rewrite Hkb. cbn [bind]. rewrite Hlen. cbn [bind].
  rewrite Hkey. cbn [bind]. rewrite Hpre. cbn [bind].
  rewrite Hint. cbn [bind].
  destruct (key_type =? 4) eqn:E4; [apply Z.eqb_eq in E4; contradiction|].
  destruct (key_type =? 2) eqn:E2; [apply Z.eqb_eq in E2; contradiction|].
  destruct (key_type =? 3) eqn:E3; [apply Z.eqb_eq in E3; contradiction|].
  reflexivity.
Qed.

(** C5.  For every pair [(x, y)] within the field range of a curve whose
    prime has at most 256 bits, decoding the DER encoding of the point
    gives the point back; each coordinate's INTEGER content reads back as
    the same number, the sign octet of a coordinate with its top bit set
    included. *)
Theorem der_point_round_trip :
  forall (curve : EllipticCurve.t) (x y : Z),
    @EllipticCurve.p curve <= 2 ^ 256 ->
    0 <= x < @EllipticCurve.p curve ->
    0 <= y < @EllipticCurve.p curve ->
    der_decode_point curve (VBytes (der_encode_point (ECPointAffine.mk x y)))
    = Ok (ECPointAffine.mk x y) /\
    integer_value (integer_content x) = x /\
    integer_value (integer_content y) = y.
Proof.
  intros curve x y Hp Hx Hy. split.
  - unfold der_decode_point.
    rewrite decoder_decode_point by lia. reflexivity.
  - split; apply integer_value_content.
Qed.

End Keys.

(** ** The module on secp256k1 with the real hashes and codec *)

Section Secp256k1Runs.
#[local] Existing Instance secp256k1.
#[local] Existing Instance hashlib_digests.
#[local] Existing Instance base58_codec.

(** Known answers of the collaborators. *)
Example sha256_abc :
  bytes_to_str (SHA256.digest [x61; x62; x63])
  = "ba7816bf8f01cfea414140de5dae2223b00361a396177a9cb410ff61f20015ad"%string.
Proof. vm_compute. reflexivity. Qed.

Example ripemd160_abc :
  bytes_to_str (RIPEMD160.digest [x61; x62; x63])
  = "8eb208f7e05d987a9b044a8e98c6b087f15a0bfc"%string.
Proof. vm_compute. reflexivity. Qed.

Example generator_on_curve :
  Secp256k1.is_on_curve (ECPointAffine.mk Secp256k1.Gx Secp256k1.Gy) = true.
Proof. vm_compute. reflexivity. Qed.

Example generator_doubled :
  Secp256k1.mul 2
  = Some (0xC6047F9441ED7D6D3045406E95C07CD85C778E4B8CEF3CA7ABAC09B95C709EE5,
          0x1AE168FEA63DC339A3C58419466CEAEEF7F632653266D0E1236431A950CFE52A).
Proof. vm_compute. reflexivity. Qed.

Example generator_tripled :
  Secp256k1.mul 3
  = Some (0xF9308A019258C31049344F85F89D5229B531C845836F99B08601F113BCE036F9,
          0x388F7B0F632DE8140FE337E62A37F3566500A99934C2231B6CB9FD7584B8E672).
Proof. vm_compute. reflexivity. Qed.

(** The generator has order [n]: [n] times the generator is the point at
    infinity, one step before it is the opposite of the generator, and one
    step past it is the generator again. *)
Example generator_order :
  Secp256k1.mul Secp256k1.n = None /\
  Secp256k1.mul (Secp256k1.n - 1)
  = Some (Secp256k1.Gx, Secp256k1.p - Secp256k1.Gy) /\
  Secp256k1.mul (Secp256k1.n + 1) = Some (Secp256k1.Gx, Secp256k1.Gy).
Proof. split; [|split]; vm_compute; reflexivity. Qed.

Lemma public_key_past_order :
  Secp256k1.public_key (Secp256k1.n + 1) = Secp256k1.public_key 1.
Proof. vm_compute. reflexivity. Qed.

(** Scenario A's key and what the pipeline derives from it. *)
Example key_one_address :
  exists sk,
    PrivateKey.__init__ 1 false = Ok sk /\
    PublicKey.b58address (PrivateKey.public_key sk)
    = "1EHNa6Q4Jz2uvNExL497mE43ikXhwF6kZm"%string /\
    PrivateKey.to_b58check sk
    = Ok "5HpHagT65TZzG1PH3CSu63k8DbpvD8s5ip4nEB3kEsreAnchuDf"%string.
Proof.
  destruct (PrivateKey.__init__ 1 false) as [sk|e] eqn:E;
    vm_compute in E; [|discriminate E].
  injection E as <-. eexists. split; [reflexivity|].
  split; vm_compute; reflexivity.
Qed.

(** Counterexample to C1 as the spec words it: the scalar [n + 1] lies
    outside [1 <= k < n], and constructing a key from it succeeds, through
    the constructor and through [from_int]; the key stores [n + 1]
    unreduced. *)
Lemma PrivateKey_init_past_order :
  (exists sk,
      PrivateKey.__init__ (Secp256k1.n + 1) false = Ok sk /\
      PrivateKey.from_int (Secp256k1.n + 1) false = Ok sk /\
      PrivateKey.key sk = Secp256k1.n + 1) /\
  (Secp256k1.n + 1 <? Secp256k1.n) = false.
Proof.
  split; [|reflexivity].
  destruct (PrivateKey.__init__ 1 false) as [sk1|e] eqn:E;
    [|vm_compute in E; discriminate E].
  apply PrivateKey_init_inv in E as (i & public & Hi & Hp & _).
  exists (PrivateKey.mk (Secp256k1.n + 1) PrivateKey.MAINNET_VERSION public).
  assert (H : PrivateKey.__init__ (Secp256k1.n + 1) false
              = Ok (PrivateKey.mk (Secp256k1.n + 1)
                      PrivateKey.MAINNET_VERSION public)).
  { unfold PrivateKey.__init__.
    change (@EllipticCurve.public_key secp256k1) with Secp256k1.public_key in *.
    rewrite public_key_past_order, Hi. cbn [bind]. rewrite Hp. reflexivity. }
  split; [exact H|]. split; [exact H|]. reflexivity.
Qed.

(** C1 (as amended) at the scalar 1 on Mainnet. *)
Lemma PrivateKey_init_unchecked_witness :
  exists sk i public,
    PrivateKey.__init__ 1 false = Ok sk /\
    EllipticCurve.public_key 1 = Ok i /\
    PublicKey.from_int i false = Ok public /\
    sk = PrivateKey.mk 1 PrivateKey.MAINNET_VERSION public.
Proof.
  destruct (PrivateKey.__init__ 1 false) as [sk|e] eqn:E;
    [|vm_compute in E; discriminate E].
  destruct (proj1 (proj1 (PrivateKey_init_unchecked 1 false) sk) E)
    as (i & public & H).
  exists sk, i, public. split; [reflexivity | exact H].
Defined.

(** C2, the code at a key's own serialization: [from_bytes] raises the
    NameError instead of giving the point back.  With both names bound to
    what the body seems to expect, the serialization and its hexadecimal
    form, the slices [1:32] and [32:65] still read a different point, which
    the constructor rejects. *)
Theorem from_bytes_of_bytes_raises :
  exists pk ser,
    PublicKey.__init__ Secp256k1.Gx Secp256k1.Gy false = Ok pk /\
    PublicKey.__bytes__ pk = Ok ser /\
    PublicKey.from_bytes (VBytes ser) (PublicKey.testnet pk)
    = Err (NameError "key_bytes") /\
    PublicKey.from_bytes_in
      [("key_bytes"%string, VBytes ser); ("key"%string, VStr (bytes_to_str ser))]
      (VBytes ser) (PublicKey.testnet pk)
    = Err (AssertionError assert_is_on_curve).
Proof.
  destruct (PublicKey.__init__ Secp256k1.Gx Secp256k1.Gy false)
    as [pk|e] eqn:E; vm_compute in E; [|discriminate E].
  injection E as <-.
  eexists. eexists. split; [reflexivity|].
  split; [vm_compute; reflexivity|].
  split; vm_compute; reflexivity.
Qed.

(** Counterexample to C3 as the spec words it, on a 65-octet buffer that
    starts with 0x05: the module raises its NameError, and the prefix
    dispatch, run with the two names bound to the buffer and its
    hexadecimal form, returns [None] where the spec has an
    UnsupportedKeyFormat error raised. *)
Lemma from_bytes_prefix_05 :
  PublicKey.from_bytes (VBytes (x05 :: repeat x00 64)) false
  = Err (NameError "key_bytes") /\
  PublicKey.from_bytes_in
    [("key_bytes"%string, VBytes (x05 :: repeat x00 64));
     ("key"%string, VStr (bytes_to_str (x05 :: repeat x00 64)))]
    (VBytes (x05 :: repeat x00 64)) false
  = Ok None.
Proof. split; vm_compute; reflexivity. Qed.

(** C3 (as amended) on the same buffer: the key type read is 5. *)
Lemma from_bytes_unknown_prefix_returns_None_witness :
  PublicKey.from_bytes_in
    [("key_bytes"%string, VBytes (x05 :: repeat x00 64));
     ("key"%string, VStr (bytes_to_str (x05 :: repeat x00 64)))]
    (VBytes (x05 :: repeat x00 64)) false
  = Ok None.
Proof.
  apply (from_bytes_unknown_prefix_returns_None _ _ _
           (VBytes (x05 :: repeat x00 64))
           (VStr (bytes_to_str (x05 :: repeat x00 64)))
           (VStr "05") 65 5);
    try (vm_compute; reflexivity); lia.
Defined.

(** C4 at the generator, which is accepted, and at the generator with its
    [y] moved off the curve, which the constructor rejects.  The body of
    [from_bytes] with [key_bytes] bound to 0x04, [x = 1] and [y = 2] rejects
    that point in the same way; [from_bytes] as the module has it raises
    NameError on the serialization of the moved generator. *)
Lemma PublicKey_point_on_curve_witness :
  exists pk,
    PublicKey.__init__ Secp256k1.Gx Secp256k1.Gy false = Ok pk /\
    EllipticCurve.is_on_curve (PublicKey.point pk) = true /\
    PublicKey.__init__ Secp256k1.Gx (Secp256k1.Gy + 1) false
    = Err (AssertionError assert_is_on_curve) /\
    PublicKey.from_bytes_in
      [("key_bytes"%string, VBytes (x04 :: be_bytes 31 1 ++ be_bytes 33 2));
       ("key"%string, VStr "04")]
      VNone false
    = Err (AssertionError assert_is_on_curve) /\
    PublicKey.from_bytes
      (VBytes (x04 :: be_bytes 32 Secp256k1.Gx
               ++ be_bytes 32 (Secp256k1.Gy + 1)))
      false
    = Err (NameError "key_bytes").
Proof.
  destruct (PublicKey.__init__ Secp256k1.Gx Secp256k1.Gy false)
    as [pk|e] eqn:E; [|vm_compute in E; discriminate E].
  exists pk. split; [reflexivity|]. split; [|split; [|split]].
  - apply (proj1 PublicKey_point_on_curve pk).
    exact (PublicKey.constructed_init _ _ _ _ E).
  - assert (Hoff : EllipticCurve.is_on_curve
                     (ECPointAffine.mk Secp256k1.Gx (Secp256k1.Gy + 1)) = false)
      by (vm_compute; reflexivity).
    exact (proj1 (proj1 (proj2 PublicKey_point_on_curve) _ _ false Hoff)).
  - assert (Hoff : EllipticCurve.is_on_curve
                     (ECPointAffine.mk
                        (int_from_bytes
                           (slice 1 32 (x04 :: be_bytes 31 1 ++ be_bytes 33 2)))
                        (int_from_bytes
                           (slice 32 65 (x04 :: be_bytes 31 1 ++ be_bytes 33 2))))
                   = false)
      by (vm_compute; reflexivity).
    exact (proj1 (proj1 (proj2 (proj2 (proj2 PublicKey_point_on_curve)))
                    [("key_bytes"%string,
                      VBytes (x04 :: be_bytes 31 1 ++ be_bytes 33 2));
                     ("key"%string, VStr "04")]
                    VNone false
                    (x04 :: be_bytes 31 1 ++ be_bytes 33 2)
                    (VStr "04") (VStr "04") 4
                    eq_refl eq_refl eq_refl eq_refl)
                 eq_refl eq_refl Hoff).
  - exact (proj2 (proj2 (proj2 (proj2 PublicKey_point_on_curve))) _ false).
Defined.

(** C5 at twice the generator of secp256k1, whose [x] has its top bit
    set: the encoder puts a sign octet before it and the decoder reads the
    same [x] back. *)
Lemma der_point_round_trip_witness :
  der_decode_point secp256k1
    (VBytes (der_encode_point
       (ECPointAffine.mk
          0xC6047F9441ED7D6D3045406E95C07CD85C778E4B8CEF3CA7ABAC09B95C709EE5
          0x1AE168FEA63DC339A3C58419466CEAEEF7F632653266D0E1236431A950CFE52A)))
  = Ok (ECPointAffine.mk
          0xC6047F9441ED7D6D3045406E95C07CD85C778E4B8CEF3CA7ABAC09B95C709EE5
          0x1AE168FEA63DC339A3C58419466CEAEEF7F632653266D0E1236431A950CFE52A) /\
  List.length
    (integer_content
       0xC6047F9441ED7D6D3045406E95C07CD85C778E4B8CEF3CA7ABAC09B95C709EE5)
  = 33%nat.
Proof.
  split; [|vm_compute; reflexivity].
  apply (der_point_round_trip secp256k1);
    cbv [EllipticCurve.p secp256k1 Secp256k1.p]; lia.
Defined.

(** C6 at the public key of the generator on Mainnet, with the real
    digests: 65, 20 and 21 octets. *)
Lemma PublicKey_address_pipeline_witness :
  exists pk ser,
    PublicKey.__init__ Secp256k1.Gx Secp256k1.Gy false = Ok pk /\
    PublicKey.__bytes__ pk = Ok ser /\
    List.length ser = 65%nat /\
    PublicKey.address pk = x00 :: ripemd160 (sha256 ser) /\
    List.length (PublicKey.address pk) = 21%nat /\
    PublicKey.b58address pk = b58encode_check (PublicKey.address pk).
Proof.
  destruct (PublicKey.__init__ Secp256k1.Gx Secp256k1.Gy false)
    as [pk|e] eqn:E; [|vm_compute in E; discriminate E].
  destruct (PublicKey_address_pipeline pk (PublicKey.constructed_init _ _ _ _ E))
    as (ser & Hb & Hser & Hlen & _ & _ & Ha & _ & Hb58 & _ & H21).
  exists pk, ser. split; [reflexivity|].
  split; [exact Hb|]. split; [exact Hlen|].
  assert (Htn : PublicKey.testnet pk = false).
  { pose proof E as E'. vm_compute in E'. injection E' as <-. reflexivity. }
  rewrite Htn in Ha.
  split; [exact Ha|]. split; [|exact Hb58].
  apply H21. rewrite Hser.
  pose proof E as E'. vm_compute in E'. injection E' as <-.
  vm_compute. reflexivity.
Defined.

(** C7 at scenario A: scalar 1 on Mainnet. *)
Lemma PrivateKey_bytes_layout_witness :
  exists sk,
    PrivateKey.__init__ 1 false = Ok sk /\
    PrivateKey.__bytes__ sk = Ok (x80 :: repeat x00 31 ++ [x01]).
Proof.
  destruct (PrivateKey.__init__ 1 false) as [sk|e] eqn:E;
    [|vm_compute in E; discriminate E].
  exists sk. split; [reflexivity|].
  assert (Hk : 1 <= 1 < EllipticCurve.n)
    by (cbv [EllipticCurve.n secp256k1 Secp256k1.n]; lia).
  assert (Hn : EllipticCurve.n <= 2 ^ 256)
    by (cbv [EllipticCurve.n secp256k1 Secp256k1.n]; lia).
  destruct (PrivateKey_bytes_layout 1 false sk Hk Hn E)
    as (body & _ & _ & _ & _ & _ & H).
  apply H; reflexivity.
Defined.

(** C8 at scalar 1 on Testnet, through the real Base58Check codec. *)
Lemma from_b58check_versions_and_round_trip_witness :
  exists sk s,
    PrivateKey.__init__ 1 true = Ok sk /\
    PrivateKey.to_b58check sk = Ok s /\
    PrivateKey.from_b58check s = Ok sk.
Proof.
  destruct (PrivateKey.__init__ 1 true) as [sk|e] eqn:E;
    [|vm_compute in E; discriminate E].
  assert (Hk : 1 <= 1 < EllipticCurve.n)
    by (cbv [EllipticCurve.n secp256k1 Secp256k1.n]; lia).
  assert (Hn : EllipticCurve.n <= 2 ^ 256)
    by (cbv [EllipticCurve.n secp256k1 Secp256k1.n]; lia).
  assert (Hcodec : forall bs,
             PrivateKey.__bytes__ sk = Ok bs ->
             b58decode_check (b58encode_check bs) = Ok bs).
  { pose proof E as E'. vm_compute in E'. injection E' as <-.
    intros bs Hbs. vm_compute in Hbs. injection Hbs as <-.
    vm_compute. reflexivity. }
  destruct (proj2 from_b58check_versions_and_round_trip 1 true sk Hk Hn E Hcodec)
    as (s & Hto & Hfrom & _).
  exists sk, s. split; [reflexivity|]. split; assumption.
Defined.

(** C9 at the draw 1, one of the outcomes of [from_random]. *)
Lemma from_random_scalar_range_witness :
  exists sk,
    PrivateKey.from_random false (Ok sk) /\
    1 <= PrivateKey.key sk <= Secp256k1.n - 2.
Proof.
  assert (Hd : randrange 1 (EllipticCurve.n - 1) (Ok 1)).
  { apply randrange_draw.
    cbv [EllipticCurve.n secp256k1 Secp256k1.n]. lia. }
  pose proof (PrivateKey.from_random_draw false (Ok 1) Hd) as H.
  cbn [bind] in H.
  destruct (PrivateKey.__init__ 1 false) as [sk|e] eqn:E;
    [|vm_compute in E; discriminate E].
  exists sk. split; [exact H|].
  exact (from_random_scalar_range false sk H).
Defined.

End Secp256k1Runs.

(** ** Hexadecimal text *)

Lemma hex_digits_of_byte (b : byte) :
  let hi := hex_digit (byte_to_Z b / 16) in
  let lo := hex_digit (byte_to_Z b mod 16) in
  is_space_bytes hi = false /\
  hex_digit_of hi = Some (byte_to_Z b / 16) /\
  hex_digit_of lo = Some (byte_to_Z b mod 16).
Proof. destruct b; vm_compute; repeat split; reflexivity. Qed.

Lemma fromhex_pairs_of_hex (bs : bytes) (fuel : nat) :
  (List.length bs < fuel)%nat ->
  fromhex_pairs fuel
    (flat_map (fun b => [hex_digit (byte_to_Z b / 16);
                         hex_digit (byte_to_Z b mod 16)]) bs)
  = Ok bs.
Proof.
  revert fuel. induction bs as [|b bs IH]; intros fuel Hf.
  - destruct fuel; [cbn in Hf; lia | reflexivity].
  - destruct fuel as [|fuel]; [cbn in Hf; lia|].
    cbn [List.length] in Hf.
    destruct (hex_digits_of_byte b) as (Hsp & Hhi & Hlo).
    cbn [flat_map app fromhex_pairs lstrip].
    rewrite Hsp, Hhi, Hlo, IH by lia. cbn [bind].
    rewrite <- Z.div_mod by lia.
    rewrite byte_of_to_Z. reflexivity.
Qed.

Lemma bytes_to_str_length (bs : bytes) :
  String.length (bytes_to_str bs) = (2 * List.length bs)%nat.
Proof.
  unfold bytes_to_str.
  induction bs as [|b bs IH]; [reflexivity|].
  cbn [flat_map app string_of_list_ascii String.length List.length].
  rewrite IH. lia.
Qed.

(** [bytes.fromhex] reads back what [bytes_to_str] wrote. *)
Lemma bytes_fromhex_to_str (bs : bytes) :
  bytes_fromhex (bytes_to_str bs) = Ok bs.
Proof.
  unfold bytes_fromhex. rewrite bytes_to_str_length.
  unfold bytes_to_str. rewrite list_ascii_of_string_of_list_ascii.
  apply fromhex_pairs_of_hex. lia.
Qed.

(** [bytes.fromhex] has one way to fail. *)
Lemma fromhex_pairs_error (fuel : nat) (l : list ascii) (e : exn) :
  fromhex_pairs fuel l = Err e -> e = ValueError.
Proof.
  revert l. induction fuel as [|fuel IH]; intros l; cbn [fromhex_pairs].
  - intros H. inversion H. reflexivity.
  - destruct (lstrip is_space_bytes l) as [|c1 [|c2 r]].
    + discriminate.
    + intros H. inversion H. reflexivity.
    + destruct (hex_digit_of c1); [|intros H; inversion H; reflexivity].
      destruct (hex_digit_of c2); [|intros H; inversion H; reflexivity].
      destruct (fromhex_pairs fuel r) eqn:E; cbn [bind]; [discriminate|].
      intros H. inversion H; subst. apply (IH r). exact E.
Qed.

Lemma int_to_bytes_overflow (z : Z) (len : nat) :
  z < 0 \/ 2 ^ (8 * Z.of_nat len) <= z ->
  int_to_bytes z len = Err OverflowError.
Proof.
  intros H. unfold int_to_bytes.
  destruct (z <? 0) eqn:E1; [reflexivity|].
  apply Z.ltb_ge in E1.
  destruct (2 ^ (8 * Z.of_nat len) <=? z) eqn:E2; [reflexivity|].
  apply Z.leb_gt in E2. lia.
Qed.

Lemma int_from_bytes_leading_zero (bs : bytes) :
  int_from_bytes (x00 :: bs) = int_from_bytes bs.
Proof. rewrite int_from_bytes_cons. change (byte_to_Z x00) with 0. lia. Qed.

(** ** More of the keys, over any collaborators *)

Section MoreKeys.
Context {bitcoin_curve : EllipticCurve.t} {hashlib : Hashlib} {base58 : Base58}
        {ecdsa : ECDSA.t}.

(** A constructed key is what the constructor builds from its own point
    and network. *)
Lemma constructed_init_self (pk : PublicKey.t) :
  PublicKey.constructed pk ->
  PublicKey.__init__ (ECPointAffine.x (PublicKey.point pk))
    (ECPointAffine.y (PublicKey.point pk)) (PublicKey.testnet pk)
  = Ok pk.
Proof.
  intros Hc. apply constructed_by_init in Hc as (x & y & tn & H).
  pose proof H as H'.
  apply PublicKey_init_inv in H' as (_ & _ & _ & ->). exact H.
Qed.

Lemma constructed_coordinates (pk : PublicKey.t) :
  PublicKey.constructed pk ->
  0 <= ECPointAffine.x (PublicKey.point pk) < 2 ^ 256 /\
  0 <= ECPointAffine.y (PublicKey.point pk) < 2 ^ 256.
Proof.
  intros Hc. apply constructed_by_init in Hc as (x & y & tn & H).
  apply PublicKey_init_inv in H as (_ & Hx & Hy & ->). auto.
Qed.

(** X1.  Every public key the module constructs has both coordinates in
    [0, 2^256): the constructor serializes the point with
    [to_bytes(32, 'big')] before it stores anything else.  A point that
    passes the engine's curve test with a negative coordinate or one of
    2^256 or more makes the constructor raise OverflowError. *)
Theorem PublicKey_coordinates_fit :
  (forall pk,
      PublicKey.constructed pk ->
      0 <= ECPointAffine.x (PublicKey.point pk) < 2 ^ 256 /\
      0 <= ECPointAffine.y (PublicKey.point pk) < 2 ^ 256) /\
  (forall x y testnet,
      EllipticCurve.is_on_curve (ECPointAffine.mk x y) = true ->
      x < 0 \/ 2 ^ 256 <= x \/ y < 0 \/ 2 ^ 256 <= y ->
      PublicKey.__init__ x y testnet = Err OverflowError).
Proof.
  split; [exact constructed_coordinates|].
  intros x y testnet Hon Hout.
  unfold PublicKey.__init__, PublicKey.__bytes__. rewrite Hon.
  cbn [py_assert bind PublicKey.point ECPointAffine.x ECPointAffine.y].
  destruct (Z_lt_dec x 0) as [Hx0|Hx0];
    [rewrite int_to_bytes_overflow by (left; exact Hx0); reflexivity|].
  destruct (Z_le_dec (2 ^ 256) x) as [Hx1|Hx1];
    [rewrite int_to_bytes_overflow
       by (right; change (2 ^ (8 * Z.of_nat 32)) with (2 ^ 256); exact Hx1);
     reflexivity|].
  rewrite (int_to_bytes_ok x)
    by (change (2 ^ (8 * Z.of_nat 32)) with (2 ^ 256); lia).
  cbn [bind].
  rewrite int_to_bytes_overflow
    by (change (2 ^ (8 * Z.of_nat 32)) with (2 ^ 256); lia).
  reflexivity.
Qed.

(** X2.  [from_der] undoes [to_der]: for every public key the module
    constructs, decoding its DER form, as bytes or as the hexadecimal text
    of those bytes, under the key's own network gives the key back, address
    attributes included. *)
Theorem PublicKey_der_round_trip :
  forall pk,
    PublicKey.constructed pk ->
    PublicKey.from_der (VBytes (PublicKey.to_der pk)) (PublicKey.testnet pk)
    = Ok pk /\
    PublicKey.from_der (VStr (bytes_to_str (PublicKey.to_der pk)))
      (PublicKey.testnet pk)
    = Ok pk.
Proof.
  intros pk Hc.
  destruct (constructed_coordinates pk Hc) as [Hx Hy].
  pose proof (constructed_init_self pk Hc) as Hinit.
  destruct pk as [[x y] tn addr b58].
  cbn [PublicKey.point PublicKey.testnet ECPointAffine.x ECPointAffine.y] in *.
  unfold PublicKey.from_der, PublicKey.to_der, der_decode_point.
  cbn [PublicKey.point].
  rewrite bytes_fromhex_to_str. cbn [bind].
  rewrite decoder_decode_point by assumption.
  cbn [bind fst getComponentByPosition nth_error asn1_int].
  unfold PublicKey.from_point.
  cbn [ECPointAffine.x ECPointAffine.y]. auto.
Qed.

(** X3.  [der_decode_point] takes the hexadecimal text of an encoding for
    the encoding itself: a [str] that [bytes.fromhex] reads decodes as the
    bytes it denotes, one it rejects raises the ValueError, and a value
    that is neither [bytes] nor [str] raises TypeError.  So the point of
    [der_encode_hex] comes back for every pair of coordinates of
    [0, 2^256). *)
Theorem der_hex_round_trip :
  forall (curve : EllipticCurve.t),
    (forall s b,
        bytes_fromhex s = Ok b ->
        der_decode_point curve (VStr s) = der_decode_point curve (VBytes b)) /\
    (forall s e,
        bytes_fromhex s = Err e ->
        der_decode_point curve (VStr s) = Err ValueError) /\
    (forall x y,
        0 <= x < 2 ^ 256 -> 0 <= y < 2 ^ 256 ->
        der_decode_point curve (VStr (der_encode_hex (ECPointAffine.mk x y)))
        = Ok (ECPointAffine.mk x y)) /\
    der_decode_point curve VNone = Err TypeError /\
    (forall z, der_decode_point curve (VInt z) = Err TypeError) /\
    (forall c, der_decode_point curve (VBool c) = Err TypeError) /\
    (forall o, der_decode_point curve (VObject o) = Err TypeError).
Proof.
  intros curve.
  split; [|split; [|split; [|repeat split]]].
  - intros s b Hs. unfold der_decode_point. rewrite Hs. reflexivity.
  - intros s e Hs. unfold der_decode_point. rewrite Hs. cbn [bind].
    unfold bytes_fromhex in Hs. apply fromhex_pairs_error in Hs.
    rewrite Hs. reflexivity.
  - intros x y Hx Hy. unfold der_decode_point, der_encode_hex.
    rewrite bytes_fromhex_to_str. cbn [bind].
    rewrite decoder_decode_point by assumption. reflexivity.
Qed.

(** X4.  The integer view of a public key loses nothing: for a curve whose
    order has 256 bits, [int(pk)] holds [x] above bit 256 and [y] in the
    low 256 bits, for every key the module constructs.  With an engine
    whose [ECPointAffine.from_int] splits an integer at bit 256,
    [PublicKey.from_int(int(pk))] under the key's network gives the key
    back. *)
Theorem PublicKey_int_round_trip :
  forall pk,
    PublicKey.constructed pk ->
    2 ^ 255 <= EllipticCurve.n < 2 ^ 256 ->
    Z.shiftr (PublicKey.__int__ pk) 256 = ECPointAffine.x (PublicKey.point pk) /\
    Z.land (PublicKey.__int__ pk) (2 ^ 256 - 1)
    = ECPointAffine.y (PublicKey.point pk) /\
    ((forall i,
         EllipticCurve.from_int i
         = Ok (ECPointAffine.mk (Z.shiftr i 256) (Z.land i (2 ^ 256 - 1)))) ->
     PublicKey.from_int (PublicKey.__int__ pk) (PublicKey.testnet pk) = Ok pk).
Proof.
  intros pk Hc Hn.
  destruct (constructed_coordinates pk Hc) as [Hx Hy].
  pose proof (constructed_init_self pk Hc) as Hinit.
  assert (Hlog : Z.log2 (Z.abs EllipticCurve.n) + 1 = 256).
  { rewrite Z.abs_eq by lia.
    rewrite (Z.log2_unique EllipticCurve.n 255); lia. }
  assert (Hint : PublicKey.__int__ pk
                 = ECPointAffine.x (PublicKey.point pk) * 2 ^ 256
                   + ECPointAffine.y (PublicKey.point pk)).
  { unfold PublicKey.__int__.
    destruct (EllipticCurve.n =? 0) eqn:E0; [apply Z.eqb_eq in E0; lia|].
    rewrite Hlog, Z.shiftl_mul_pow2 by lia. reflexivity. }
  assert (Hhi : Z.shiftr (PublicKey.__int__ pk) 256
                = ECPointAffine.x (PublicKey.point pk)).
  { rewrite Hint, Z.shiftr_div_pow2 by lia.
    rewrite Z.div_add_l by lia. rewrite Z.div_small by lia. lia. }
  assert (Hlo : Z.land (PublicKey.__int__ pk) (2 ^ 256 - 1)
                = ECPointAffine.y (PublicKey.point pk)).
  { change (2 ^ 256 - 1) with (Z.ones 256).
    rewrite Z.land_ones by lia. rewrite Hint.
    rewrite Z.add_comm, Z.mod_add by lia. apply Z.mod_small. lia. }
  split; [exact Hhi|]. split; [exact Hlo|].
  intros Hsplit. unfold PublicKey.from_int.
  rewrite Hsplit, Hhi, Hlo. cbn [bind].
  unfold PublicKey.from_point. cbn [ECPointAffine.x ECPointAffine.y].
  exact Hinit.
Qed.

(** X5.  The public key of a private key is one the module constructed
    from the engine's answer for the scalar: it is on the curve, it is on
    the network the private key was made for, and its address starts with
    0x6F exactly when the private key's version is 0xEF (0x00 with 0x80).
    [PublicKey.from_private_key] hands out that same key. *)
Theorem PrivateKey_public_key_consistent :
  forall (k : Z) (testnet : bool) (sk : PrivateKey.t),
    PrivateKey.__init__ k testnet = Ok sk ->
    from_private_key sk = PrivateKey.public_key sk /\
    PublicKey.constructed (PrivateKey.public_key sk) /\
    EllipticCurve.is_on_curve (PublicKey.point (PrivateKey.public_key sk))
    = true /\
    PublicKey.testnet (PrivateKey.public_key sk) = testnet /\
    (exists i,
        EllipticCurve.public_key k = Ok i /\
        EllipticCurve.from_int i
        = Ok (PublicKey.point (PrivateKey.public_key sk))) /\
    (exists ripe,
        PublicKey.address (PrivateKey.public_key sk)
        = (if PrivateKey.version sk =? 0xEF then x6f else x00) :: ripe).
Proof.
  intros k testnet sk Hinit.
  apply PrivateKey_init_inv in Hinit as (i & public & Hi & Hp & ->).
  unfold from_private_key, PrivateKey.public_key.
  cbn [PrivateKey._public_key PrivateKey.version].
  assert (Hc : PublicKey.constructed public)
    by exact (PublicKey.constructed_from_int i testnet public Hp).
  split; [reflexivity|]. split; [exact Hc|].
  unfold PublicKey.from_int in Hp.
  destruct (EllipticCurve.from_int i) as [pt|e] eqn:Ept; cbn [bind] in Hp;
    [|discriminate Hp].
  unfold PublicKey.from_point in Hp.
  apply PublicKey_init_inv in Hp as (Hon & _ & _ & ->).
  cbn [PublicKey.point PublicKey.testnet PublicKey.address PublicKey._address].
  split; [exact Hon|]. split; [reflexivity|]. split.
  - exists i. split; [exact Hi|]. destruct pt; exact Ept.
  - eexists. destruct testnet; reflexivity.
Qed.

(** X6.  DER carries a signature unchanged from [sign] to [verify]: when
    the engine signs with both components in [0, 2^256), [sign] returns the
    DER encoding of that raw signature, and [verify] on those bytes, or on
    their hexadecimal text, answers exactly what the engine's [verify]
    answers for the raw signature and the key's point, whatever message is
    verified.  An error of the engine's [sign] is passed on, and a signature
    that is neither [bytes] nor [str] raises TypeError. *)
Theorem sign_verify_through_der :
  forall (sk : PrivateKey.t) (pk : PublicKey.t) (message message' : bytes),
    (forall sig,
        PrivateKey.raw_sign sk message = Ok sig ->
        0 <= ECPointAffine.x sig < 2 ^ 256 ->
        0 <= ECPointAffine.y sig < 2 ^ 256 ->
        PrivateKey.sign sk message = Ok (der_encode_point sig) /\
        PublicKey.verify pk message' (VBytes (der_encode_point sig))
        = ECDSA.verify message' sig (PublicKey.point pk) /\
        PublicKey.verify pk message' (VStr (der_encode_hex sig))
        = ECDSA.verify message' sig (PublicKey.point pk)) /\
    (forall e,
        PrivateKey.raw_sign sk message = Err e ->
        PrivateKey.sign sk message = Err e) /\
    PublicKey.verify pk message' VNone = Err TypeError /\
    (forall z, PublicKey.verify pk message' (VInt z) = Err TypeError) /\
    (forall b, PublicKey.verify pk message' (VBool b) = Err TypeError) /\
    (forall o, PublicKey.verify pk message' (VObject o) = Err TypeError).
Proof.
  intros sk pk message message'.
  split; [|split; [|split; [|split; [|split]]]].
  - intros [r s] Hraw Hr Hs.
    cbn [ECPointAffine.x ECPointAffine.y] in Hr, Hs.
    unfold PrivateKey.sign. rewrite Hraw. cbn [bind].
    split; [reflexivity|].
    unfold PublicKey.verify, der_encode_hex.
    rewrite bytes_fromhex_to_str. cbn [bind].
    unfold der_decode_point.
    rewrite decoder_decode_point by assumption.
    cbn [bind fst getComponentByPosition nth_error asn1_int]. auto.
  - intros e Hraw. unfold PrivateKey.sign. rewrite Hraw. reflexivity.
  - reflexivity.
  - reflexivity.
  - reflexivity.
  - reflexivity.
Qed.

(** X7.  [PublicKey.from_hex] never returns a key: text that
    [bytes.fromhex] rejects raises its ValueError, and any other text is
    handed to [from_bytes], which raises the NameError on [key_bytes]. *)
Theorem from_hex_never_returns :
  forall (h : string) (testnet : bool),
    (exists b,
        bytes_fromhex h = Ok b /\
        PublicKey.from_hex h testnet = Err (NameError "key_bytes")) \/
    (bytes_fromhex h = Err ValueError /\
     PublicKey.from_hex h testnet = Err ValueError).
Proof.
  intros h testnet. unfold PublicKey.from_hex.
  destruct (bytes_fromhex h) as [b|e] eqn:E; cbn [bind].
  - left. exists b. split; [reflexivity|].
    unfold PublicKey.from_bytes, PublicKey.from_bytes_in.
    assert (Hkb : load_global module_globals builtins "key_bytes"
                  = Err (NameError "key_bytes")) by (vm_compute; reflexivity).
    rewrite Hkb. reflexivity.
  - right. unfold bytes_fromhex in E. apply fromhex_pairs_error in E.
    subst e. split; reflexivity.
Qed.

(** X8.  The constructor accepts scalars that cannot be serialized.  For a
    constructed private key, [bytes], [to_hex] and [to_b58check] succeed
    exactly when the scalar is in [0, 2^256): then they give 33 octets,
    their 66 hexadecimal digits (which [bytes.fromhex] reads back) and
    their Base58Check encoding; for a negative scalar or one of 2^256 or
    more all three raise OverflowError. *)
Theorem PrivateKey_serialization_range :
  forall (k : Z) (testnet : bool) (sk : PrivateKey.t),
    PrivateKey.__init__ k testnet = Ok sk ->
    (0 <= k < 2 ^ 256 ->
     exists bs,
       PrivateKey.__bytes__ sk = Ok bs /\
       List.length bs = 33%nat /\
       PrivateKey.to_hex sk = Ok (bytes_to_str bs) /\
       String.length (bytes_to_str bs) = 66%nat /\
       bytes_fromhex (bytes_to_str bs) = Ok bs /\
       PrivateKey.to_b58check sk = Ok (b58encode_check bs)) /\
    (k < 0 \/ 2 ^ 256 <= k ->
     PrivateKey.__bytes__ sk = Err OverflowError /\
     PrivateKey.to_hex sk = Err OverflowError /\
     PrivateKey.to_b58check sk = Err OverflowError).
Proof.
  intros k testnet sk Hinit. split.
  - intros Hk.
    pose proof (PrivateKey_bytes_of_init k testnet sk Hinit Hk) as Hb.
    eexists. split; [exact Hb|].
    split; [cbn [List.length]; rewrite be_bytes_length; reflexivity|].
    unfold PrivateKey.to_hex, PrivateKey.to_b58check. rewrite Hb. cbn [bind].
    split; [reflexivity|].
    split; [rewrite bytes_to_str_length; cbn [List.length];
            rewrite be_bytes_length; reflexivity|].
    split; [apply bytes_fromhex_to_str | reflexivity].
  - intros Hk.
    apply PrivateKey_init_inv in Hinit as (i & public & _ & _ & ->).
    assert (Hb : PrivateKey.__bytes__
                   (PrivateKey.mk k
                      (if testnet then PrivateKey.TESTNET_VERSION
                       else PrivateKey.MAINNET_VERSION) public)
                 = Err OverflowError).
    { unfold PrivateKey.__bytes__. cbn [PrivateKey.version PrivateKey.key].
      rewrite int_to_bytes_overflow
        by (change (2 ^ (8 * Z.of_nat 32)) with (2 ^ 256); lia).
      destruct testnet; reflexivity. }
    unfold PrivateKey.to_hex, PrivateKey.to_b58check. rewrite Hb.
    repeat split.
Qed.

(** X9.  [from_b58check] passes a decoding error of the codec on, raises
    IndexError on an empty payload, and does not check the payload's
    length: the scalar is the big-endian value of whatever follows the
    version octet, so a payload with a zero octet put in after the version
    decodes to the same result. *)
Theorem from_b58check_payload :
  (forall s e,
      b58decode_check s = Err e -> PrivateKey.from_b58check s = Err e) /\
  (forall s,
      b58decode_check s = Ok [] -> PrivateKey.from_b58check s = Err IndexError) /\
  (forall s s' v rest,
      b58decode_check s = Ok (v :: rest) ->
      b58decode_check s' = Ok (v :: x00 :: rest) ->
      PrivateKey.from_b58check s' = PrivateKey.from_b58check s).
Proof.
  split; [|split].
  - intros s e H. unfold PrivateKey.from_b58check. rewrite H. reflexivity.
  - intros s H. unfold PrivateKey.from_b58check. rewrite H. reflexivity.
  - intros s s' v rest H H'. unfold PrivateKey.from_b58check.
    rewrite H, H'. cbn [bind].
    rewrite int_from_bytes_leading_zero. reflexivity.
Qed.

(** What a run of [from_bytes] that returns a key has read. *)
Lemma from_bytes_in_inv (globals : namespace) (b : value) (testnet : bool)
  (pk : PublicKey.t) :
  PublicKey.from_bytes_in globals b testnet = Ok (Some pk) ->
  exists kb key prefix key_type,
    load_global globals builtins "key_bytes" = Ok (VBytes kb) /\
    load_global globals builtins "key" = Ok key /\
    py_slice 0 2 key = Ok prefix /\
    py_int prefix = Ok key_type /\
    ECPointAffine.x (PublicKey.point pk) = int_from_bytes (slice 1 32 kb) /\
    ((key_type = 4 /\ List.length kb = 65%nat /\
      ECPointAffine.y (PublicKey.point pk) = int_from_bytes (slice 32 65 kb)) \/
     ((key_type = 2 \/ key_type = 3) /\ List.length kb = 33%nat /\
      exists y0,
        EllipticCurve.y_from_x (int_from_bytes (slice 1 32 kb)) = Ok y0 /\
        ECPointAffine.y (PublicKey.point pk)
        = if negb (y0 mod 2 =? key_type - 2)
          then (- y0) mod EllipticCurve.p else y0)).
Proof.
  unfold PublicKey.from_bytes_in. intros H.
  destruct (load_global globals builtins "key_bytes") as [key_bytes|e] eqn:Ekb;
    cbn [bind] in H; [|discriminate H].
  destruct (py_len key_bytes) as [len|e] eqn:Elen;
    cbn [bind] in H; [|discriminate H].
  destruct (load_global globals builtins "key") as [key|e] eqn:Ekey;
    cbn [bind] in H; [|discriminate H].
  destruct (py_slice 0 2 key) as [prefix|e] eqn:Epre;
    cbn [bind] in H; [|discriminate H].
  destruct (py_int prefix) as [key_type|e] eqn:Eint;
    cbn [bind] in H; [|discriminate H].
  destruct key_bytes as [| | |kb|s|]; try discriminate Elen.
  - cbn [py_len] in Elen. inversion Elen; subst len. clear Elen.
    cbn [py_slice py_int_from_bytes bind] in H.
    exists kb, key, prefix, key_type.
    split; [first [assumption | reflexivity]|].
    split; [first [assumption | reflexivity]|].
    split; [first [assumption | reflexivity]|].
    split; [first [assumption | reflexivity]|].
    destruct (key_type =? 4) eqn:E4.
    + apply Z.eqb_eq in E4.
      destruct (Z.of_nat (List.length kb) =? 65) eqn:E65;
        cbn [py_assert bind] in H; [|discriminate H].
      apply Z.eqb_eq in E65.
      destruct (PublicKey.__init__ (int_from_bytes (slice 1 32 kb))
                  (int_from_bytes (slice 32 65 kb)) testnet)
        as [pk'|e] eqn:Einit; cbn [bind] in H; [|discriminate H].
      inversion H; subst pk'. clear H.
      apply PublicKey_init_inv in Einit as (_ & _ & _ & ->).
      cbn [PublicKey.point ECPointAffine.x ECPointAffine.y].
      split; [reflexivity|]. left.
      split; [exact E4|]. split; [lia | reflexivity].
    + destruct ((key_type =? 2) || (key_type =? 3)) eqn:E23;
        [|discriminate H].
      destruct (Z.of_nat (List.length kb) =? 33) eqn:E33;
        cbn [py_assert bind] in H; [|discriminate H].
      apply Z.eqb_eq in E33.
      destruct (EllipticCurve.y_from_x (int_from_bytes (slice 1 32 kb)))
        as [y0|e] eqn:Ey; cbn [bind] in H; [|discriminate H].
      destruct (PublicKey.__init__ (int_from_bytes (slice 1 32 kb))
                  (if negb (y0 mod 2 =? key_type - 2)
                   then (- y0) mod EllipticCurve.p else y0) testnet)
        as [pk'|e] eqn:Einit; cbn [bind] in H; [|discriminate H].
      inversion H; subst pk'. clear H.
      apply PublicKey_init_inv in Einit as (_ & _ & _ & ->).
      cbn [PublicKey.point ECPointAffine.x ECPointAffine.y].
      split; [reflexivity|]. right. split.
      * apply Bool.orb_true_iff in E23 as [E|E]; apply Z.eqb_eq in E; auto.
      * split; [lia|]. exists y0. split; reflexivity.
  - cbn [py_slice py_int_from_bytes bind] in H.
    destruct (key_type =? 4).
    + destruct (py_assert (len =? 65) assert_len_65); cbn [bind] in H;
        discriminate H.
    + destruct ((key_type =? 2) || (key_type =? 3)); [|discriminate H].
      destruct (py_assert (len =? 33) assert_len_33); cbn [bind] in H;
        discriminate H.
Qed.

(** X10.  Whatever the names [key_bytes] and [key] are bound to, a key
    that [from_bytes] returns has [x] below 2^248: both branches read [x]
    from [key_bytes[1:32]], which is 31 octets. *)
Theorem from_bytes_x_below_2_248 :
  forall (globals : namespace) (b : value) (testnet : bool) (pk : PublicKey.t),
    PublicKey.from_bytes_in globals b testnet = Ok (Some pk) ->
    0 <= ECPointAffine.x (PublicKey.point pk) < 2 ^ 248.
Proof.
  intros globals b testnet pk H.
  apply from_bytes_in_inv in H
    as (kb & key & prefix & key_type & _ & _ & _ & _ & Hx & _).
  rewrite Hx.
  pose proof (int_from_bytes_range (slice 1 32 kb)) as Hr.
  assert (Hlen : (List.length (slice 1 32 kb) <= 31)%nat).
  { unfold slice. rewrite length_firstn. apply Nat.le_min_l. }
  assert (Hpow : 2 ^ (8 * Z.of_nat (List.length (slice 1 32 kb))) <= 2 ^ 248)
    by (apply Z.pow_le_mono_r; lia).
  lia.
Qed.

(** X11.  In the compressed branch of [from_bytes], with the names bound,
    the [y] of the key returned is the root whose parity is the prefix
    minus 2: when the engine's [y_from_x] gives a root [y0] of [1, p - 1]
    modulo an odd [p], the key holds [y0] if its parity matches and
    [p - y0] otherwise, and [key_bytes] had 33 octets. *)
Theorem from_bytes_compressed_parity :
  forall (globals : namespace) (b : value) (testnet : bool) (pk : PublicKey.t)
         (kb : bytes) (key prefix : value) (key_type y0 : Z),
    load_global globals builtins "key_bytes" = Ok (VBytes kb) ->
    load_global globals builtins "key" = Ok key ->
    py_slice 0 2 key = Ok prefix ->
    py_int prefix = Ok key_type ->
    key_type = 2 \/ key_type = 3 ->
    EllipticCurve.y_from_x (int_from_bytes (slice 1 32 kb)) = Ok y0 ->
    0 < y0 < EllipticCurve.p ->
    EllipticCurve.p mod 2 = 1 ->
    PublicKey.from_bytes_in globals b testnet = Ok (Some pk) ->
    ECPointAffine.y (PublicKey.point pk) mod 2 = key_type - 2 /\
    (ECPointAffine.y (PublicKey.point pk) = y0 \/
     ECPointAffine.y (PublicKey.point pk) = EllipticCurve.p - y0) /\
    ECPointAffine.x (PublicKey.point pk) = int_from_bytes (slice 1 32 kb) /\
    List.length kb = 33%nat.
Proof.
  intros globals b testnet pk kb key prefix key_type y0
         Hkb Hkey Hpre Hint Hkt Hy0 Hrange Hodd H.
  apply from_bytes_in_inv in H
    as (kb' & key' & prefix' & kt' & Hkb' & Hkey' & Hpre' & Hint' & Hx & Hcase).
  rewrite Hkb in Hkb'. inversion Hkb'; subst kb'.
  rewrite Hkey in Hkey'. inversion Hkey'; subst key'.
  rewrite Hpre in Hpre'. inversion Hpre'; subst prefix'.
  rewrite Hint in Hint'. inversion Hint'; subst kt'.
  destruct Hcase as [(H4 & _) | (_ & Hlen & y0' & Hy0' & Hy)]; [lia|].
  rewrite Hy0 in Hy0'. inversion Hy0'; subst y0'.
  assert (Hneg : (- y0) mod EllipticCurve.p = EllipticCurve.p - y0).
  { symmetry. apply Z.mod_unique with (q := -1); lia. }
  pose proof (Z.div_mod y0 2 ltac:(lia)) as Hd0.
  pose proof (Z.mod_pos_bound y0 2 ltac:(lia)) as Hb0.
  pose proof (Z.div_mod EllipticCurve.p 2 ltac:(lia)) as Hdp.
  assert (Hflip : (EllipticCurve.p - y0) mod 2 = 1 - y0 mod 2).
  { symmetry.
    apply Z.mod_unique with (q := EllipticCurve.p / 2 - y0 / 2); lia. }
  split; [|split; [|split; [exact Hx | exact Hlen]]].
  - rewrite Hy.
    destruct (y0 mod 2 =? key_type - 2) eqn:E; cbn [negb].
    + apply Z.eqb_eq in E. exact E.
    + apply Z.eqb_neq in E. rewrite Hneg, Hflip. lia.
  - rewrite Hy.
    destruct (y0 mod 2 =? key_type - 2); cbn [negb]; [left | right];
      [reflexivity | exact Hneg].
Qed.

(** X12.  For every public key the module constructs, [to_hex] is the 130
    hexadecimal digits of the 65 octets of [bytes(pk)], and [bytes.fromhex]
    reads those octets back. *)
Theorem PublicKey_to_hex_round_trip :
  forall pk,
    PublicKey.constructed pk ->
    exists ser,
      PublicKey.__bytes__ pk = Ok ser /\
      PublicKey.to_hex pk = Ok (bytes_to_str ser) /\
      String.length (bytes_to_str ser) = 130%nat /\
      bytes_fromhex (bytes_to_str ser) = Ok ser.
Proof.
  intros pk Hc.
  destruct (constructed_coordinates pk Hc) as [Hx Hy].
  exists ([x04] ++ be_bytes 32 (ECPointAffine.x (PublicKey.point pk))
               ++ be_bytes 32 (ECPointAffine.y (PublicKey.point pk))).
  assert (Hb : PublicKey.__bytes__ pk
               = Ok ([x04] ++ be_bytes 32 (ECPointAffine.x (PublicKey.point pk))
                           ++ be_bytes 32 (ECPointAffine.y (PublicKey.point pk)))).
  { unfold PublicKey.__bytes__.
    rewrite !int_to_bytes_ok
      by (change (2 ^ (8 * Z.of_nat 32)) with (2 ^ 256); lia).
    reflexivity. }
  split; [exact Hb|].
  split; [unfold PublicKey.to_hex; rewrite Hb; reflexivity|].
  split; [|apply bytes_fromhex_to_str].
  rewrite bytes_to_str_length. cbn [app List.length].
  rewrite length_app, !be_bytes_length. reflexivity.
Qed.

(** X13.  [from_bytes] checks the length of [key_bytes] before it reads a
    coordinate: with the names bound, key type 4 with a length other than
    65 fails the first length assertion and key type 2 or 3 with a length
    other than 33 fails the second, whatever the octets are. *)
Theorem from_bytes_length_asserts :
  forall (globals : namespace) (b : value) (testnet : bool)
         (key_bytes key prefix : value) (len key_type : Z),
    load_global globals builtins "key_bytes" = Ok key_bytes ->
    py_len key_bytes = Ok len ->
    load_global globals builtins "key" = Ok key ->
    py_slice 0 2 key = Ok prefix ->
    py_int prefix = Ok key_type ->
    (key_type = 4 -> len <> 65 ->
     PublicKey.from_bytes_in globals b testnet
     = Err (AssertionError assert_len_65)) /\
    (key_type = 2 \/ key_type = 3 -> len <> 33 ->
     PublicKey.from_bytes_in globals b testnet
     = Err (AssertionError assert_len_33)).
Proof.
  intros globals b testnet key_bytes key prefix len key_type
         Hkb Hlen Hkey Hpre Hint.
  unfold PublicKey.from_bytes_in.
  rewrite Hkb. cbn [bind]. rewrite Hlen. cbn [bind].
  rewrite Hkey. cbn [bind]. rewrite Hpre. cbn [bind].
  rewrite Hint. cbn [bind].
  split.
  - intros -> Hne. cbn [Z.eqb Pos.eqb].
    destruct (len =? 65) eqn:E; [apply Z.eqb_eq in E; contradiction|].
    reflexivity.
  - intros Hkt Hne.
    destruct (key_type =? 4) eqn:E4; [apply Z.eqb_eq in E4; lia|].
    assert (E23 : (key_type =? 2) || (key_type =? 3) = true)
      by (destruct Hkt as [-> | ->]; reflexivity).
    rewrite E23.
    destruct (len =? 33) eqn:E; [apply Z.eqb_eq in E; contradiction|].
    reflexivity.
Qed.

End MoreKeys.

(** ** Octets after a DER value *)

Lemma decode_length_app (bs junk rest : bytes) (len : nat) :
  decode_length bs = Ok (len, rest) ->
  decode_length (bs ++ junk) = Ok (len, rest ++ junk).
Proof.
  destruct bs as [|b after]; cbn [decode_length app]; [discriminate|].
  destruct (byte_to_Z b <? 128).
  - intros H. inversion H; subst. reflexivity.
  - destruct (byte_to_Z b =? 128); [discriminate|].
    set (k := Z.to_nat (byte_to_Z b - 128)).
    destruct (List.length after <? k)%nat eqn:E; [discriminate|].
    apply Nat.ltb_ge in E.
    intros H. inversion H; subst.
    rewrite length_app.
    destruct (List.length after + List.length junk <? k)%nat eqn:E2;
      [apply Nat.ltb_lt in E2; lia|].
    rewrite firstn_app, skipn_app.
    replace (k - List.length after)%nat with 0%nat by lia.
    cbn [firstn skipn]. rewrite app_nil_r. reflexivity.
Qed.

(** An item is decoded from its own octets: what follows them is handed
    back untouched. *)
Lemma decode_item_app (fuel : nat) (bs junk rest : bytes) (v : asn1) :
  decode_item fuel bs = Ok (v, rest) ->
  decode_item fuel (bs ++ junk) = Ok (v, rest ++ junk).
Proof.
  destruct fuel as [|fuel]; cbn [decode_item]; [discriminate|].
  destruct bs as [|tag after]; [discriminate|]. cbn [app].
  destruct (decode_length after) as [[len rest']|e] eqn:El; cbn [bind];
    [|discriminate].
  rewrite (decode_length_app _ junk _ _ El). cbn [bind].
  destruct (List.length rest' <? len)%nat eqn:E; [discriminate|].
  apply Nat.ltb_ge in E. rewrite length_app.
  destruct (List.length rest' + List.length junk <? len)%nat eqn:E2;
    [apply Nat.ltb_lt in E2; lia|].
  rewrite firstn_app, skipn_app.
  replace (len - List.length rest')%nat with 0%nat by lia.
  cbn [firstn skipn]. rewrite app_nil_r.
  destruct (Strings.Byte.eqb tag x02).
  - intros H. inversion H; subst. reflexivity.
  - destruct (Strings.Byte.eqb tag x30); [|discriminate].
    destruct (decode_items fuel (firstn len rest')); cbn [bind];
      [|discriminate].
    intros H. inversion H; subst. reflexivity.
Qed.

Lemma decoder_decode_app (der junk rest : bytes) (v : asn1) :
  decoder_decode der = Ok (v, rest) ->
  decoder_decode (der ++ junk) = Ok (v, rest ++ junk).
Proof.
  intros H. unfold decoder_decode at 1.
  apply decode_item_app.
  rewrite decode_item_fuel by (rewrite length_app; lia).
  exact H.
Qed.

Section KeyViews.
Context {bitcoin_curve : EllipticCurve.t} {hashlib : Hashlib} {base58 : Base58}
        {ecdsa : ECDSA.t}.

(** X14.  [der_decode_point] keeps the first value [decoder.decode] returns
    and drops the octets left over ([decoder.decode(der)[0]]): whatever is
    appended to an encoding that decodes to a point decodes to the same
    point.  So [PublicKey.verify] gives the same answer for a signature
    with octets appended, and [PublicKey.from_der] builds the same key. *)
Theorem der_trailing_octets_ignored :
  forall (der junk : bytes) (pt : ECPointAffine.t),
    der_decode_point bitcoin_curve (VBytes der) = Ok pt ->
    der_decode_point bitcoin_curve (VBytes (der ++ junk)) = Ok pt /\
    (forall (pk : PublicKey.t) (message : bytes),
        PublicKey.verify pk message (VBytes (der ++ junk))
        = PublicKey.verify pk message (VBytes der)) /\
    (forall testnet : bool,
        PublicKey.from_der (VBytes (der ++ junk)) testnet
        = PublicKey.from_der (VBytes der) testnet).
Proof.
  intros der junk pt H.
  assert (H' : der_decode_point bitcoin_curve (VBytes (der ++ junk)) = Ok pt).
  { unfold der_decode_point in *.
    destruct (decoder_decode der) as [[v rest]|e] eqn:E; cbn [bind] in H;
      [|discriminate H].
    rewrite (decoder_decode_app _ junk _ _ E). cbn [bind fst] in *. exact H. }
  split; [exact H'|]. split.
  - intros pk message. unfold PublicKey.verify. cbn [bind].
    rewrite H, H'. reflexivity.
  - intros testnet. unfold PublicKey.from_der. rewrite H, H'. reflexivity.
Qed.

(** X15.  [PublicKey.from_point] on the point and network of a constructed
    key gives that key back.  On the other network it gives a key with the
    same point whose address keeps the 20-octet hash and changes the
    version octet only (0x00 for Mainnet, 0x6F for Testnet). *)
Theorem from_point_networks :
  forall pk,
    PublicKey.constructed pk ->
    PublicKey.from_point (PublicKey.point pk) (PublicKey.testnet pk) = Ok pk /\
    exists pk',
      PublicKey.from_point (PublicKey.point pk) (negb (PublicKey.testnet pk))
      = Ok pk' /\
      PublicKey.point pk' = PublicKey.point pk /\
      PublicKey.testnet pk' = negb (PublicKey.testnet pk) /\
      tl (PublicKey.address pk') = tl (PublicKey.address pk) /\
      hd x00 (PublicKey.address pk)
      = (if PublicKey.testnet pk then x6f else x00) /\
      hd x00 (PublicKey.address pk')
      = (if PublicKey.testnet pk then x00 else x6f).
Proof.
  intros pk Hc. split; [exact (constructed_init_self pk Hc)|].
  apply constructed_by_init in Hc as (x & y & tn & H).
  apply PublicKey_init_inv in H as (Hon & Hx & Hy & ->). cbv zeta.
  cbn [PublicKey.point PublicKey.testnet ECPointAffine.x ECPointAffine.y].
  unfold PublicKey.from_point, PublicKey.__init__, PublicKey.__bytes__.
  cbn [PublicKey.point PublicKey.testnet ECPointAffine.x ECPointAffine.y].
  rewrite Hon. cbn [py_assert bind].
  rewrite !int_to_bytes_ok
    by (change (2 ^ (8 * Z.of_nat 32)) with (2 ^ 256); lia).
  cbn [bind]. eexists. split; [reflexivity|].
  unfold PublicKey.address.
  cbn [PublicKey.point PublicKey.testnet PublicKey._address app tl hd].
  destruct tn; cbn [negb]; auto.
Qed.

(** X16.  [int(sk)] is the scalar the key was built from, and
    [PrivateKey.from_int] on it, with the network read off the version
    octet, gives the key back.  When the scalar fits 32 octets, the octets
    of [bytes(sk)] after the version octet read back as [int(sk)]. *)
Theorem PrivateKey_int_round_trip :
  forall (k : Z) (testnet : bool) (sk : PrivateKey.t),
    PrivateKey.__init__ k testnet = Ok sk ->
    PrivateKey.__int__ sk = k /\
    PrivateKey.from_int (PrivateKey.__int__ sk)
      (PrivateKey.version sk =? PrivateKey.TESTNET_VERSION)
    = Ok sk /\
    (0 <= k < 2 ^ 256 ->
     exists bs,
       PrivateKey.__bytes__ sk = Ok bs /\
       int_from_bytes (skipn 1 bs) = PrivateKey.__int__ sk /\
       byte_to_Z (hd x00 bs) = PrivateKey.version sk).
Proof.
  intros k testnet sk H.
  pose proof (PrivateKey_bytes_of_init k testnet sk H) as Hb.
  pose proof H as Hinv.
  apply PrivateKey_init_inv in Hinv as (i & public & _ & _ & Hsk).
  assert (Hint : PrivateKey.__int__ sk = k) by (rewrite Hsk; reflexivity).
  assert (Hv : (PrivateKey.version sk =? PrivateKey.TESTNET_VERSION) = testnet)
    by (rewrite Hsk; destruct testnet; reflexivity).
  split; [exact Hint|]. split.
  - rewrite Hint, Hv. exact H.
  - intros Hk. eexists. split; [exact (Hb Hk)|].
    cbn [skipn hd]. rewrite int_from_be_bytes, Hint.
    change (2 ^ (8 * Z.of_nat 32)) with (2 ^ 256).
    split; [apply Z.mod_small; exact Hk|].
    rewrite Hsk. destruct testnet; reflexivity.
Qed.

(** X17.  On a curve whose order is at most 2^256, every key
    [PrivateKey.from_random] returns can be written out: its scalar lies in
    [1, n - 2], so [bytes(sk)] has 33 octets, [to_hex] 66 characters and
    [to_b58check] a text, and the hexadecimal form of its public key has 130
    characters.  None of them raises OverflowError. *)
Theorem from_random_serializes :
  forall (testnet : bool) (sk : PrivateKey.t),
    EllipticCurve.n <= 2 ^ 256 ->
    PrivateKey.from_random testnet (Ok sk) ->
    exists bs ser,
      PrivateKey.__bytes__ sk = Ok bs /\
      List.length bs = 33%nat /\
      PrivateKey.to_hex sk = Ok (bytes_to_str bs) /\
      String.length (bytes_to_str bs) = 66%nat /\
      PrivateKey.to_b58check sk = Ok (b58encode_check bs) /\
      PublicKey.to_hex (PrivateKey.public_key sk) = Ok (bytes_to_str ser) /\
      String.length (bytes_to_str ser) = 130%nat.
Proof.
  intros testnet sk Hn H.
  inversion H as [d Hd Hres].
  destruct Hd as [r Hr | Hempty]; cbn [bind] in Hres; [|discriminate Hres].
  pose proof (PrivateKey_bytes_of_init r testnet sk Hres) as Hb.
  assert (Hk : 0 <= r < 2 ^ 256) by lia.
  specialize (Hb Hk).
  apply PrivateKey_init_inv in Hres as (i & public & _ & Hpub & Hsk).
  pose proof (constructed_coordinates public
                (PublicKey.constructed_from_int _ _ _ Hpub)) as [Hx Hy].
  exists (byte_of_Z (if testnet then 0xEF else 0x80) :: be_bytes 32 r).
  exists ([x04] ++ be_bytes 32 (ECPointAffine.x (PublicKey.point public))
               ++ be_bytes 32 (ECPointAffine.y (PublicKey.point public))).
  split; [exact Hb|].
  split; [cbn [List.length]; rewrite be_bytes_length; reflexivity|].
  split; [unfold PrivateKey.to_hex; rewrite Hb; reflexivity|].
  split; [rewrite bytes_to_str_length; cbn [List.length];
          rewrite be_bytes_length; reflexivity|].
  split; [unfold PrivateKey.to_b58check; rewrite Hb; reflexivity|].
  split.
  - rewrite Hsk. unfold PrivateKey.public_key. cbn [PrivateKey._public_key].
    unfold PublicKey.to_hex, PublicKey.__bytes__.
    rewrite !int_to_bytes_ok
      by (change (2 ^ (8 * Z.of_nat 32)) with (2 ^ 256); assumption).
    reflexivity.
  - rewrite bytes_to_str_length, !length_app, !be_bytes_length. reflexivity.
Qed.

End KeyViews.

(** ** More runs on secp256k1 *)

Section MoreSecp256k1Runs.
#[local] Existing Instance secp256k1.
#[local] Existing Instance hashlib_digests.
#[local] Existing Instance base58_codec.
#[local] Existing Instance secp256k1_ecdsa.

(** X1 at the generator, and at the generator with [p] added to its [x]:
    the curve equation still holds and [x] no longer fits 32 octets. *)
Lemma PublicKey_coordinates_fit_witness :
  exists pk,
    PublicKey.__init__ Secp256k1.Gx Secp256k1.Gy false = Ok pk /\
    (0 <= ECPointAffine.x (PublicKey.point pk) < 2 ^ 256 /\
     0 <= ECPointAffine.y (PublicKey.point pk) < 2 ^ 256) /\
    PublicKey.__init__ (Secp256k1.Gx + Secp256k1.p) Secp256k1.Gy false
    = Err OverflowError.
Proof.
  destruct (PublicKey.__init__ Secp256k1.Gx Secp256k1.Gy false)
    as [pk|e] eqn:E; [|vm_compute in E; discriminate E].
  exists pk. split; [reflexivity|]. split.
  - exact (proj1 PublicKey_coordinates_fit pk
             (PublicKey.constructed_init _ _ _ _ E)).
  - assert (Hon : EllipticCurve.is_on_curve
                    (ECPointAffine.mk (Secp256k1.Gx + Secp256k1.p) Secp256k1.Gy)
                  = true) by (vm_compute; reflexivity).
    assert (Hout : Secp256k1.Gx + Secp256k1.p < 0 \/
                   2 ^ 256 <= Secp256k1.Gx + Secp256k1.p \/
                   Secp256k1.Gy < 0 \/ 2 ^ 256 <= Secp256k1.Gy)
      by (right; left; cbv [Secp256k1.Gx Secp256k1.p]; lia).
    exact (proj2 PublicKey_coordinates_fit _ _ false Hon Hout).
Defined.

(** X2 at the public key of the generator on Mainnet. *)
Lemma PublicKey_der_round_trip_witness :
  exists pk,
    PublicKey.__init__ Secp256k1.Gx Secp256k1.Gy false = Ok pk /\
    PublicKey.from_der (VBytes (PublicKey.to_der pk)) (PublicKey.testnet pk)
    = Ok pk /\
    PublicKey.from_der (VStr (bytes_to_str (PublicKey.to_der pk)))
      (PublicKey.testnet pk)
    = Ok pk.
Proof.
  destruct (PublicKey.__init__ Secp256k1.Gx Secp256k1.Gy false)
    as [pk|e] eqn:E; [|vm_compute in E; discriminate E].
  exists pk. split; [reflexivity|].
  exact (PublicKey_der_round_trip pk (PublicKey.constructed_init _ _ _ _ E)).
Defined.

(** X3 at twice the generator: its hexadecimal DER text decodes to it. *)
Lemma der_hex_round_trip_witness :
  der_decode_point secp256k1
    (VStr (der_encode_hex
       (ECPointAffine.mk
          0xC6047F9441ED7D6D3045406E95C07CD85C778E4B8CEF3CA7ABAC09B95C709EE5
          0x1AE168FEA63DC339A3C58419466CEAEEF7F632653266D0E1236431A950CFE52A)))
  = Ok (ECPointAffine.mk
          0xC6047F9441ED7D6D3045406E95C07CD85C778E4B8CEF3CA7ABAC09B95C709EE5
          0x1AE168FEA63DC339A3C58419466CEAEEF7F632653266D0E1236431A950CFE52A).
Proof.
  apply (proj1 (proj2 (proj2 (der_hex_round_trip secp256k1)))); lia.
Defined.

(** X4 at the public key of the generator: the engine model splits an
    integer at bit 256, and the key comes back from its integer view. *)
Lemma PublicKey_int_round_trip_witness :
  exists pk,
    PublicKey.__init__ Secp256k1.Gx Secp256k1.Gy false = Ok pk /\
    PublicKey.from_int (PublicKey.__int__ pk) (PublicKey.testnet pk) = Ok pk.
Proof.
  destruct (PublicKey.__init__ Secp256k1.Gx Secp256k1.Gy false)
    as [pk|e] eqn:E; [|vm_compute in E; discriminate E].
  exists pk. split; [reflexivity|].
  assert (Hn : 2 ^ 255 <= EllipticCurve.n < 2 ^ 256)
    by (cbv [EllipticCurve.n secp256k1 Secp256k1.n]; lia).
  destruct (PublicKey_int_round_trip pk
              (PublicKey.constructed_init _ _ _ _ E) Hn) as (_ & _ & H).
  apply H. intros i. reflexivity.
Defined.

(** X5 at the scalar 1 on Testnet: the address starts with 0x6F. *)
Lemma PrivateKey_public_key_consistent_witness :
  exists sk ripe,
    PrivateKey.__init__ 1 true = Ok sk /\
    PublicKey.testnet (from_private_key sk) = true /\
    PublicKey.address (PrivateKey.public_key sk) = x6f :: ripe.
Proof.
  destruct (PrivateKey.__init__ 1 true) as [sk|e] eqn:E;
    [|vm_compute in E; discriminate E].
  destruct (PrivateKey_public_key_consistent 1 true sk E)
    as (Hfrom & _ & _ & Htn & _ & ripe & Haddr).
  exists sk, ripe. split; [reflexivity|].
  split; [rewrite Hfrom; exact Htn|].
  rewrite Haddr.
  apply PrivateKey_init_inv in E as (i & public & _ & _ & ->).
  reflexivity.
Defined.

(** X6 at scenario B: the key of scalar 1 signs "foobar"; its public key
    verifies the signature for "foobar" and refuses it for "foobaz". *)
Lemma sign_verify_through_der_witness :
  exists sk sig,
    PrivateKey.__init__ 1 false = Ok sk /\
    PrivateKey.raw_sign sk [x66; x6f; x6f; x62; x61; x72] = Ok sig /\
    PrivateKey.sign sk [x66; x6f; x6f; x62; x61; x72]
    = Ok (der_encode_point sig) /\
    PublicKey.verify (PrivateKey.public_key sk) [x66; x6f; x6f; x62; x61; x72]
      (VBytes (der_encode_point sig))
    = Ok true /\
    PublicKey.verify (PrivateKey.public_key sk) [x66; x6f; x6f; x62; x61; x7a]
      (VBytes (der_encode_point sig))
    = Ok false.
Proof.
  destruct (PrivateKey.__init__ 1 false) as [sk|e] eqn:E;
    [|vm_compute in E; discriminate E].
  pose proof E as Hsk. vm_compute in Hsk. injection Hsk as Hsk.
  destruct (PrivateKey.raw_sign sk [x66; x6f; x6f; x62; x61; x72])
    as [sig|e] eqn:Es;
    [|rewrite <- Hsk in Es; vm_compute in Es; discriminate Es].
  pose proof Es as Hsig. rewrite <- Hsk in Hsig. vm_compute in Hsig.
  injection Hsig as Hsig.
  assert (Hr : 0 <= ECPointAffine.x sig < 2 ^ 256)
    by (rewrite <- Hsig; cbn [ECPointAffine.x]; lia).
  assert (Hs : 0 <= ECPointAffine.y sig < 2 ^ 256)
    by (rewrite <- Hsig; cbn [ECPointAffine.y]; lia).
  exists sk, sig. split; [reflexivity|]. split; [exact Es|].
  destruct (proj1 (sign_verify_through_der sk (PrivateKey.public_key sk)
                     [x66; x6f; x6f; x62; x61; x72]
                     [x66; x6f; x6f; x62; x61; x72]) sig Es Hr Hs)
    as (Hsign & Hv & _).
  destruct (proj1 (sign_verify_through_der sk (PrivateKey.public_key sk)
                     [x66; x6f; x6f; x62; x61; x72]
                     [x66; x6f; x6f; x62; x61; x7a]) sig Es Hr Hs)
    as (_ & Hv' & _).
  split; [exact Hsign|]. split.
  - rewrite Hv, <- Hsk, <- Hsig. vm_compute. reflexivity.
  - rewrite Hv', <- Hsk, <- Hsig. vm_compute. reflexivity.
Defined.

(** X8 at the scalar 2^256 + 1: the constructor accepts it, and none of
    the three serializations can be produced. *)
Lemma PrivateKey_serialization_range_witness :
  exists sk,
    PrivateKey.__init__ (2 ^ 256 + 1) false = Ok sk /\
    PrivateKey.__bytes__ sk = Err OverflowError /\
    PrivateKey.to_hex sk = Err OverflowError /\
    PrivateKey.to_b58check sk = Err OverflowError.
Proof.
  destruct (PrivateKey.__init__ (2 ^ 256 + 1) false) as [sk|e] eqn:E;
    [|vm_compute in E; discriminate E].
  exists sk. split; [reflexivity|].
  apply (proj2 (PrivateKey_serialization_range (2 ^ 256 + 1) false sk E)).
  right. lia.
Defined.

(** X9 on the real codec: the Base58Check text of scalar 1 on Mainnet and
    the text of the same payload with a zero octet after the version decode
    to the same key. *)
Lemma from_b58check_payload_witness :
  PrivateKey.from_b58check
    (b58encode_check (x80 :: x00 :: be_bytes 32 1))
  = PrivateKey.from_b58check
      "5HpHagT65TZzG1PH3CSu63k8DbpvD8s5ip4nEB3kEsreAnchuDf".
Proof.
  apply (proj2 (proj2 from_b58check_payload) _ _ x80 (be_bytes 32 1));
    vm_compute; reflexivity.
Defined.

(** X10 at a point with a small [x]: [key_bytes] holds 0x04, [x = 1] in 31
    octets and its [y] in 33, and [from_bytes] returns the key. *)
Lemma from_bytes_x_below_2_248_witness :
  exists pk,
    PublicKey.from_bytes_in
      [("key_bytes"%string,
        VBytes (x04 :: be_bytes 31 1
                ++ be_bytes 33
                     0x4218F20AE6C646B363DB68605822FB14264CA8D2587FDD6FBC750D587E76A7EE));
       ("key"%string, VStr "04")]
      VNone false
    = Ok (Some pk) /\
    0 <= ECPointAffine.x (PublicKey.point pk) < 2 ^ 248.
Proof.
  match goal with
  | |- exists pk, ?run = _ /\ _ =>
      destruct run as [[pk|]|e] eqn:E;
      [|vm_compute in E; discriminate E|vm_compute in E; discriminate E]
  end.
  exists pk. split; [reflexivity|].
  exact (from_bytes_x_below_2_248 _ _ _ pk E).
Defined.

(** X11 at the same [x] with prefix 0x03: the engine's root is even, so
    the key holds the other root, which is odd. *)
Lemma from_bytes_compressed_parity_witness :
  exists pk,
    PublicKey.from_bytes_in
      [("key_bytes"%string, VBytes (x03 :: be_bytes 31 1 ++ [x00]));
       ("key"%string, VStr "03")]
      VNone false
    = Ok (Some pk) /\
    ECPointAffine.y (PublicKey.point pk) mod 2 = 1 /\
    ECPointAffine.y (PublicKey.point pk)
    = Secp256k1.p
      - 0x4218F20AE6C646B363DB68605822FB14264CA8D2587FDD6FBC750D587E76A7EE.
Proof.
  match goal with
  | |- exists pk, ?run = _ /\ _ =>
      destruct run as [[pk|]|e] eqn:E;
      [|vm_compute in E; discriminate E|vm_compute in E; discriminate E]
  end.
  exists pk. split; [reflexivity|].
  assert (Hy0 : EllipticCurve.y_from_x
                  (int_from_bytes (slice 1 32 (x03 :: be_bytes 31 1 ++ [x00])))
                = Ok 0x4218F20AE6C646B363DB68605822FB14264CA8D2587FDD6FBC750D587E76A7EE)
    by (vm_compute; reflexivity).
  assert (Hr : 0 < 0x4218F20AE6C646B363DB68605822FB14264CA8D2587FDD6FBC750D587E76A7EE
               < EllipticCurve.p)
    by (cbv [EllipticCurve.p secp256k1 Secp256k1.p]; lia).
  assert (Hodd : EllipticCurve.p mod 2 = 1) by (vm_compute; reflexivity).
  destruct (from_bytes_compressed_parity
              [("key_bytes"%string, VBytes (x03 :: be_bytes 31 1 ++ [x00]));
               ("key"%string, VStr "03")]
              VNone false pk
              (x03 :: be_bytes 31 1 ++ [x00]) (VStr "03") (VStr "03") 3 _
              eq_refl eq_refl eq_refl eq_refl (or_intror eq_refl)
              Hy0 Hr Hodd E) as (Hpar & Hroot & _).
  split; [exact Hpar|].
  destruct Hroot as [Hsame | Hother]; [|exact Hother].
  rewrite Hsame in Hpar. vm_compute in Hpar. discriminate Hpar.
Defined.

(** X12 at the public key of the generator on Mainnet. *)
Lemma PublicKey_to_hex_round_trip_witness :
  exists pk ser,
    PublicKey.__init__ Secp256k1.Gx Secp256k1.Gy false = Ok pk /\
    PublicKey.to_hex pk = Ok (bytes_to_str ser) /\
    String.length (bytes_to_str ser) = 130%nat /\
    bytes_fromhex (bytes_to_str ser) = Ok ser.
Proof.
  destruct (PublicKey.__init__ Secp256k1.Gx Secp256k1.Gy false)
    as [pk|e] eqn:E; [|vm_compute in E; discriminate E].
  destruct (PublicKey_to_hex_round_trip pk
              (PublicKey.constructed_init _ _ _ _ E))
    as (ser & _ & Hhex & Hlen & Hback).
  exists pk, ser. split; [reflexivity|]. auto.
Defined.

(** X13 at an uncompressed prefix with 64 octets, one short. *)
Lemma from_bytes_length_asserts_witness :
  PublicKey.from_bytes_in
    [("key_bytes"%string, VBytes (x04 :: repeat x00 63));
     ("key"%string, VStr "04")]
    VNone false
  = Err (AssertionError assert_len_65).
Proof.
  apply (proj1 (from_bytes_length_asserts
                  [("key_bytes"%string, VBytes (x04 :: repeat x00 63));
                   ("key"%string, VStr "04")]
                  VNone false
                  (VBytes (x04 :: repeat x00 63)) (VStr "04") (VStr "04")
                  64 4 eq_refl eq_refl eq_refl eq_refl eq_refl));
    [reflexivity | lia].
Defined.

(** X14 at the encoding of the pair (5, 7) with two octets appended. *)
Lemma der_trailing_octets_ignored_witness :
  der_decode_point secp256k1
    (VBytes (der_encode_point (ECPointAffine.mk 5 7) ++ [xff; x00]))
  = Ok (ECPointAffine.mk 5 7).
Proof.
  assert (H : der_decode_point secp256k1
                (VBytes (der_encode_point (ECPointAffine.mk 5 7)))
              = Ok (ECPointAffine.mk 5 7)) by (vm_compute; reflexivity).
  exact (proj1 (der_trailing_octets_ignored _ [xff; x00] _ H)).
Defined.

(** X15 at the public key of the generator: built on Mainnet, rebuilt on
    Testnet. *)
Lemma from_point_networks_witness :
  exists pk pk',
    PublicKey.__init__ Secp256k1.Gx Secp256k1.Gy false = Ok pk /\
    PublicKey.from_point (PublicKey.point pk) (negb (PublicKey.testnet pk))
    = Ok pk' /\
    PublicKey.point pk' = PublicKey.point pk /\
    tl (PublicKey.address pk') = tl (PublicKey.address pk).
Proof.
  destruct (PublicKey.__init__ Secp256k1.Gx Secp256k1.Gy false)
    as [pk|e] eqn:E; [|vm_compute in E; discriminate E].
  destruct (proj2 (from_point_networks pk
                     (PublicKey.constructed_init _ _ _ _ E)))
    as (pk' & Hfp & Hpt & _ & Htl & _).
  exists pk, pk'. auto.
Defined.

(** X16 at the scalar 1 on Testnet. *)
Lemma PrivateKey_int_round_trip_witness :
  exists sk,
    PrivateKey.__init__ 1 true = Ok sk /\
    PrivateKey.__int__ sk = 1 /\
    PrivateKey.from_int (PrivateKey.__int__ sk)
      (PrivateKey.version sk =? PrivateKey.TESTNET_VERSION)
    = Ok sk.
Proof.
  destruct (PrivateKey.__init__ 1 true) as [sk|e] eqn:E;
    [|vm_compute in E; discriminate E].
  destruct (PrivateKey_int_round_trip 1 true sk E) as (Hint & Hfrom & _).
  exists sk. auto.
Defined.

(** X17 at the draw 1 of the random source, on Mainnet. *)
Lemma from_random_serializes_witness :
  exists sk bs,
    PrivateKey.from_random false (Ok sk) /\
    PrivateKey.to_hex sk = Ok (bytes_to_str bs) /\
    String.length (bytes_to_str bs) = 66%nat.
Proof.
  assert (Hdraw : randrange 1 (EllipticCurve.n - 1) (Ok 1))
    by (apply randrange_draw;
        cbv [EllipticCurve.n secp256k1 Secp256k1.n]; lia).
  pose proof (PrivateKey.from_random_draw false (Ok 1) Hdraw) as Hr.
  cbn [bind] in Hr.
  destruct (PrivateKey.__init__ 1 false) as [sk|e] eqn:E;
    [|vm_compute in E; discriminate E].
  assert (Hn : EllipticCurve.n <= 2 ^ 256)
    by (cbv [EllipticCurve.n secp256k1 Secp256k1.n]; lia).
  destruct (from_random_serializes false sk Hn Hr)
    as (bs & ser & _ & _ & Hhex & Hlen & _).
  exists sk, bs. auto.
Defined.

End MoreSecp256k1Runs.
